(** * Fuzzy air-quality engine: a shallow embedding of [fuzzy_system.py]

    The development follows [class FuzzyAirQualitySystem].  Python floats are
    idealised as rationals ([Q]): finite values with exact arithmetic.  Two
    sources of failure are kept explicit:
    - a Python-level exception is a [Raise] in the [result] monad
      (float division by zero raises [ZeroDivisionError], so a quotient whose
      divisor is computed goes through [Py.div]; a quotient by a nonzero
      literal cannot raise and is written with the division of [Q]);
    - numpy's array division does not raise, it yields [inf] or [nan]; the
      values it produces live in [Np.npfloat].
    Code of the libraries the class calls is not part of the repository and
    enters as parameters: the skfuzzy simulation as fields of the instance,
    pandas' sampling order, sklearn's [f1_score] and numpy's [sqrt] as
    section variables. *)

From Stdlib Require Import QArith Qabs Qminmax Lqa List String Bool ZArith Lia.
Import ListNotations.
Open Scope Q_scope.
Open Scope string_scope.

(** ** Python runtime *)

Module Py.

Inductive exn : Type :=
| ZeroDivisionError
| ValueError
| KeyError
| TypeError.

Inductive result (A : Type) : Type :=
| Ok (a : A)
| Raise (e : exn).
Arguments Ok {A} a.
Arguments Raise {A} e.

Definition bind {A B : Type} (m : result A) (k : A -> result B) : result B :=
  match m with
  | Ok a => k a
  | Raise e => Raise e
  end.

(** [try: body  except Exception as e: handler e] *)
Definition try_except {A : Type} (body : result A) (handler : exn -> result A)
  : result A :=
  match body with
  | Ok a => Ok a
  | Raise e => handler e
  end.

Definition Qlt_bool (x y : Q) : bool := negb (Qle_bool y x).

(** The builtins [min(a, b)] and [max(a, b)]: the first argument is kept
    unless the second is strictly smaller (resp. larger). *)
Definition min (a b : Q) : Q := if Qlt_bool b a then b else a.
Definition max (a b : Q) : Q := if Qlt_bool a b then b else a.

(** [x / y] on floats. *)
Definition div (x y : Q) : result Q :=
  if Qeq_bool y 0 then Raise ZeroDivisionError else Ok (x / y).

(** A [dict] with string keys, in insertion order. *)
Definition dict (V : Type) : Type := list (string * V).

Fixpoint dict_set {V : Type} (d : dict V) (k : string) (v : V) : dict V :=
  match d with
  | [] => [(k, v)]
  | (k', v') :: d' =>
      if String.eqb k k' then (k', v) :: d' else (k', v') :: dict_set d' k v
  end.

(** A dict display [{k1: v1, k2: v2, ...}]: a repeated key keeps its first
    position and takes the last value. *)
Definition dict_literal {V : Type} (items : list (string * V)) : dict V :=
  fold_left (fun d kv => dict_set d (fst kv) (snd kv)) items [].

Fixpoint dict_get {V : Type} (d : dict V) (k : string) (default : V) : V :=
  match d with
  | [] => default
  | (k', v) :: d' => if String.eqb k k' then v else dict_get d' k default
  end.

End Py.

Import Py.

Declare Scope py_scope.
Notation "x <- m ;; k" := (Py.bind m (fun x => k))
  (at level 61, m at next level, right associativity) : py_scope.
Open Scope py_scope.

(** ** Hand-written membership functions (fallback path) *)

(** [trimf], defined identically inside [calculate_co_membership],
    [calculate_no2_membership] and [calculate_o3_membership]. *)
Definition trimf (x a b c : Q) : result Q :=
  if Qle_bool x a || Qle_bool c x then Ok 0.0
  else if Qlt_bool a x && Qlt_bool x b then
    (if negb (Qeq_bool (b - a) 0) then Py.div (x - a) (b - a) else Ok 0.0)
  else
    (if negb (Qeq_bool (c - b) 0) then Py.div (c - x) (c - b) else Ok 0.0).

(** [trapmf] of [calculate_co_membership]. *)
Definition trapmf (x a b c d : Q) : result Q :=
  if Qle_bool x a || Qle_bool d x then Ok 0.0
  else if Qlt_bool a x && Qlt_bool x b then
    (if negb (Qeq_bool (b - a) 0) then Py.div (x - a) (b - a) else Ok 0.0)
  else if Qle_bool b x && Qle_bool x c then Ok 1.0
  else
    (if negb (Qeq_bool (d - c) 0) then Py.div (d - x) (d - c) else Ok 0.0).

(** [trap_left] of [calculate_no2_membership]: decreasing ramp. *)
Definition trap_left (x a b : Q) : result Q :=
  if Qle_bool x a then Ok 1.0
  else if Qle_bool b x then Ok 0.0
  else if negb (Qeq_bool (b - a) 0) then Py.div (b - x) (b - a) else Ok 0.0.

(** [ramp_right] of [calculate_no2_membership]; [trap_right] of
    [calculate_o3_membership] has the same body. *)
Definition ramp_right (x a b : Q) : result Q :=
  if Qle_bool x a then Ok 0.0
  else if Qle_bool b x then Ok 1.0
  else if negb (Qeq_bool (b - a) 0) then Py.div (x - a) (b - a) else Ok 0.0.

Definition trap_right (x a b : Q) : result Q :=
  if Qle_bool x a then Ok 0.0
  else if Qle_bool b x then Ok 1.0
  else if negb (Qeq_bool (b - a) 0) then Py.div (x - a) (b - a) else Ok 0.0.

Definition calculate_co_membership (co : Q) : result (dict Q) :=
  let co := Py.max 0.0 (Py.min co 20.0) in
  very_low <- trimf co 0.0 0.0 2.0 ;;
  low <- trimf co 1.0 2.5 4.0 ;;
  moderate <- trimf co 3.0 5.0 7.0 ;;
  high <- trimf co 6.0 9.0 12.0 ;;
  very_high <- trapmf co 10.0 15.0 20.0 20.0 ;;
  Ok (dict_literal
        [("Very_Low", very_low); ("Low", low); ("Moderate", moderate);
         ("High", high); ("Very_High", very_high)]).

Definition calculate_no2_membership (no2 : Q) : result (dict Q) :=
  let no2 := Py.max 0.0 (Py.min no2 400.0) in
  excellent <- trap_left no2 0.0 50.0 ;;
  good <- trimf no2 50.0 100.0 150.0 ;;
  fair <- trimf no2 125.0 200.0 275.0 ;;
  poor <- trimf no2 225.0 300.0 375.0 ;;
  hazardous <- ramp_right no2 350.0 400.0 ;;
  Ok (dict_literal
        [("Excellent", excellent); ("Good", good); ("Fair", fair);
         ("Poor", poor); ("Hazardous", hazardous)]).

Definition calculate_o3_membership (o3 : Q) : result (dict Q) :=
  let o3 := Py.max 0.0 (Py.min o3 3000.0) in
  let good := if Qle_bool o3 1000.0 then Py.max 0.0 (1.0 - o3 / 1000.0) else 0.0 in
  moderate <- trimf o3 1000.0 1500.0 2000.0 ;;
  unhealthy <- trimf o3 1750.0 2250.0 2750.0 ;;
  very_unhealthy <- trap_right o3 2500.0 3000.0 ;;
  Ok (dict_literal
        [("Good", good); ("Moderate", moderate); ("Unhealthy", unhealthy);
         ("Very_Unhealthy", very_unhealthy)]).

(** Every value of a membership dict is a degree. *)
Definition degrees_in_unit (m : dict Q) : Prop :=
  Forall (fun kv => 0 <= snd kv /\ snd kv <= 1) m.

(** [r] is a normal return whose value is the rational [q]. *)
Definition returns (r : result Q) (q : Q) : Prop :=
  exists v, r = Ok v /\ v == q.

(** ** numpy on one-dimensional arrays *)

Module Np.

(** A float64 that an array operation may produce from finite operands. *)
Inductive npfloat : Type :=
| Fin (q : Q)
| PInf
| NInf
| NaN.

(** [np.mean] of a float array; the mean of an empty array is [nan]. *)
Definition mean (xs : list Q) : npfloat :=
  match xs with
  | [] => NaN
  | _ => Fin (fold_left Qplus xs 0 / inject_Z (Z.of_nat (List.length xs)))
  end.

Definition count_true (bs : list bool) : nat :=
  List.length (filter (fun b => b) bs).

(** [np.mean] of a boolean array: the fraction of [True] entries. *)
Definition mean_bool (bs : list bool) : npfloat :=
  match bs with
  | [] => NaN
  | _ => Fin (inject_Z (Z.of_nat (count_true bs))
              / inject_Z (Z.of_nat (List.length bs)))
  end.

(** Element-wise binary operation on two arrays of one shape; arrays of
    different lengths do not broadcast (length-one arrays, which would,
    never occur here). *)
Fixpoint zip_with {A B C : Type} (f : A -> B -> C) (xs : list A) (ys : list B)
  : result (list C) :=
  match xs, ys with
  | [], [] => Ok []
  | x :: xs', y :: ys' => zs <- zip_with f xs' ys' ;; Ok (f x y :: zs)
  | _, _ => Raise ValueError
  end.

Definition subtract (xs ys : list Q) : result (list Q) := zip_with Qminus xs ys.

(** One element of [xs / ys]: division by zero yields a signed infinity,
    or [nan] for [0 / 0], with a warning and no exception. *)
Definition divide1 (x y : Q) : npfloat :=
  if Qeq_bool y 0 then
    (if Qeq_bool x 0 then NaN else if Qlt_bool 0 x then PInf else NInf)
  else Fin (x / y).

Definition divide (xs ys : list Q) : result (list npfloat) :=
  zip_with divide1 xs ys.

(** One element of [xs <= c]; every comparison with [nan] is false. *)
Definition less_equal1 (x : npfloat) (c : Q) : bool :=
  match x with
  | Fin q => Qle_bool q c
  | NInf => true
  | PInf => false
  | NaN => false
  end.

Definition equal_nat (xs ys : list nat) : result (list bool) :=
  zip_with Nat.eqb xs ys.

End Np.

Import Np.

(** ** Scoring functions *)

(** One [for category, value in mf.items()] loop of [calculate_fuzzy_aqi];
    the accumulator is [(weighted_sum, total_weight)]. *)
Definition accumulate_memberships (weights : dict Q) (mf : dict Q) (acc : Q * Q)
  : Q * Q :=
  fold_left
    (fun acc kv =>
       let '(category, value) := kv in
       let '(weighted_sum, total_weight) := acc in
       if Qlt_bool 0 value
       then (weighted_sum + value * dict_get weights category 50, total_weight + value)
       else acc)
    mf acc.

Definition fuzzy_aqi_weights : dict Q :=
  dict_literal
    [("Very_Low", 10); ("Low", 30); ("Moderate", 50); ("High", 75); ("Very_High", 100);
     ("Excellent", 10); ("Good", 30); ("Fair", 55); ("Poor", 80); ("Hazardous", 100);
     ("Good", 10); ("Moderate", 50); ("Unhealthy", 85); ("Very_Unhealthy", 100)].

Definition calculate_fuzzy_aqi (co_mf no2_mf o3_mf : dict Q) : result Q :=
  let weights := fuzzy_aqi_weights in
  let acc := accumulate_memberships weights co_mf (0, 0) in
  let acc := accumulate_memberships weights no2_mf acc in
  let '(weighted_sum, total_weight) := accumulate_memberships weights o3_mf acc in
  aqi <- (if Qlt_bool 0 total_weight then Py.div weighted_sum total_weight else Ok 50) ;;
  Ok (Py.min 100 (Py.max 0 aqi)).

Definition calculate_crisp_aqi (co no2 o3 : Q) : Q :=
  let score := 0 in
  let score :=
    if Qlt_bool co 1 then score + 40
    else if Qlt_bool co 3 then score + 30
    else if Qlt_bool co 5 then score + 20
    else if Qlt_bool co 7 then score + 10
    else score in
  let score :=
    if Qlt_bool no2 50 then score + 35
    else if Qlt_bool no2 100 then score + 25
    else if Qlt_bool no2 150 then score + 15
    else if Qlt_bool no2 200 then score + 5
    else score in
  let score :=
    if Qlt_bool o3 50 then score + 25
    else if Qlt_bool o3 100 then score + 15
    else if Qlt_bool o3 150 then score + 5
    else score in
  let aqi := 100 - (score / 100 * 100) in
  Py.max 0 (Py.min aqi 100).

Definition get_category (aqi : Q) : string :=
  if Qle_bool aqi 25 then "Excellent"
  else if Qle_bool aqi 50 then "Good"
  else if Qle_bool aqi 75 then "Fair"
  else if Qle_bool aqi 90 then "Poor"
  else "Very Poor".

Definition aqi_to_category (aqi : Q) : string :=
  if Qle_bool aqi 50 then "Good"
  else if Qle_bool aqi 100 then "Moderate"
  else if Qle_bool aqi 150 then "Unhealthy_Sensitive"
  else if Qle_bool aqi 200 then "Unhealthy"
  else if Qle_bool aqi 300 then "Very_Unhealthy"
  else "Hazardous".

(** ** Rows of the dataset *)

(** A row of [self.data]: [load_data] keeps the five columns, coerces them to
    numbers and drops every row with a missing value. *)
Record Row : Type := mkRow {
  CO : Q;
  NO2 : Q;
  O3_Sensor : Q;
  Temperature : Q;
  Humidity : Q
}.

(** [pd.notna] on a cell that holds a number. *)
Definition pd_notna (cell : Q) : bool := true.

(** [float(cell)] on a cell that holds a number. *)
Definition py_float (cell : Q) : result Q := Ok cell.

Definition calculate_epa_aqi (row : Row) : Q :=
  match
    (co <- (if pd_notna (CO row) then py_float (CO row) else Ok 0) ;;
     no2 <- (if pd_notna (NO2 row) then py_float (NO2 row) else Ok 0) ;;
     o3 <- (if pd_notna (O3_Sensor row) then py_float (O3_Sensor row) else Ok 0) ;;
     let co_aqi := Py.min 500 (Py.max 0 ((co / 20.0) * 500)) in
     let no2_aqi := Py.min 500 (Py.max 0 ((no2 / 400.0) * 500)) in
     let o3_aqi := Py.min 500 (Py.max 0 ((o3 / 3000.0) * 500)) in
     Ok (Py.max (Py.max co_aqi no2_aqi) o3_aqi))
  with
  | Ok aqi => aqi
  | Raise _ => 250.0
  end.

Definition calculate_ground_truth (row : Row) : Q :=
  match
    (co <- (if pd_notna (CO row) then py_float (CO row) else Ok 0) ;;
     no2 <- (if pd_notna (NO2 row) then py_float (NO2 row) else Ok 0) ;;
     o3 <- (if pd_notna (O3_Sensor row) then py_float (O3_Sensor row) else Ok 0) ;;
     let co_normalized := Py.min 500 ((co / 20.0) * 500) in
     let no2_normalized := Py.min 500 ((no2 / 400.0) * 500) in
     let o3_normalized := Py.min 500 ((o3 / 3000.0) * 500) in
     let gt := 0.4 * co_normalized + 0.3 * no2_normalized + 0.3 * o3_normalized in
     Ok (Py.min 500 gt))
  with
  | Ok gt => gt
  | Raise _ => 250.0
  end.

(** ** The system object *)

(** What reading [rule.antecedent.membership_value] yields.  The attribute
    belongs to skfuzzy (library code, outside the repository): for the
    antecedents of [self.rules], all built with [&] and [|], the library
    returns an accessor object indexed by simulation, which is neither [None]
    nor a number. *)
Inductive activation : Type :=
| ActNone
| ActNumber (value : Q)
| ActObject.

(** The state of an instance that the methods below read.  [aqi_sim] stands
    for the skfuzzy simulation: setting its five inputs, [compute()] and the
    read of [output['AQI']], which yield the crisp output or the exception the
    library raises.  [rule_membership_value] is what
    [rule.antecedent.membership_value] reads for each rule of [self.rules], in
    order, after that computation. *)
Record FuzzyAirQualitySystem : Type := mkSystem {
  data : list Row;
  aqi_sim : Q -> Q -> Q -> Q -> Q -> result Q;
  rule_membership_value : Q -> Q -> Q -> Q -> Q -> list (result activation)
}.

(** ** Confidence *)

(** The loop of [calculate_confidence]: a read that raises leaves the loop,
    a [None] is skipped, any other value is appended. *)
Fixpoint collect_activations (reads : list (result activation))
  (activations : list activation) : result (list activation) :=
  match reads with
  | [] => Ok activations
  | read :: reads' =>
      activation <- read ;;
      match activation with
      | ActNone => collect_activations reads' activations
      | _ => collect_activations reads' (activations ++ [activation])
      end
  end.

(** The numbers of a list whose elements are all numbers; numpy cannot add or
    divide any other object and raises [TypeError]. *)
Fixpoint numbers_of (values : list activation) : result (list Q) :=
  match values with
  | [] => Ok []
  | ActNumber value :: values' =>
      rest <- numbers_of values' ;;
      Ok (value :: rest)
  | _ :: _ => Raise TypeError
  end.

(** [np.mean] of a Python list. *)
Definition np_mean (values : list activation) : result npfloat :=
  numbers <- numbers_of values ;;
  Ok (Np.mean numbers).

Definition calculate_confidence (reads : list (result activation)) : npfloat :=
  match
    (activations <- collect_activations reads [] ;;
     match activations with
     | [] => Ok (Fin 0.8)
     | _ => np_mean activations
     end)
  with
  | Ok confidence => confidence
  | Raise _ => Fin 0.8
  end.

(** ** Assessment *)

Inductive AssessResult : Type :=
| Comprehensive (fuzzy_aqi epa_aqi : Q) (category : string) (confidence : npfloat)
                (inputs : Q * Q * Q * Q * Q)
| Simple (fuzzy_aqi : Q) (category : string) (crisp_aqi : Q)
         (membership : dict Q * dict Q * dict Q).

(** [result['fuzzy_aqi']]: both shapes of the result carry the key. *)
Definition result_fuzzy_aqi (r : AssessResult) : Q :=
  match r with
  | Comprehensive fuzzy_aqi _ _ _ _ => fuzzy_aqi
  | Simple fuzzy_aqi _ _ _ => fuzzy_aqi
  end.


Definition simple_assess (co no2 o3 : Q) : result AssessResult :=
  let o3_normalized := if Qlt_bool 100 o3 then o3 / 10.0 else o3 in
  co_membership <- calculate_co_membership co ;;
  no2_membership <- calculate_no2_membership no2 ;;
  o3_membership <- calculate_o3_membership o3_normalized ;;
  fuzzy_aqi <- calculate_fuzzy_aqi co_membership no2_membership o3_membership ;;
  let crisp_aqi := calculate_crisp_aqi co no2 o3_normalized in
  let category := get_category fuzzy_aqi in
  Ok (Simple fuzzy_aqi category crisp_aqi
             (co_membership, no2_membership, o3_membership)).

Definition comprehensive_assess (self : FuzzyAirQualitySystem)
  (co no2 o3 temp humidity : Q) : result AssessResult :=
  try_except
    (fuzzy_aqi <- aqi_sim self co no2 o3 temp humidity ;;
     let crisp_aqi := calculate_crisp_aqi co no2 (o3 / 10.0) in
     let category := aqi_to_category fuzzy_aqi in
     let confidence :=
       calculate_confidence (rule_membership_value self co no2 o3 temp humidity) in
     Ok (Comprehensive fuzzy_aqi crisp_aqi category confidence
                       (co, no2, o3, temp, humidity)))
    (fun e => simple_assess co no2 o3).

Definition assess (self : FuzzyAirQualitySystem) (co no2 o3 : Q) : result AssessResult :=
  comprehensive_assess self co no2 o3 20.0 50.0.

(** ** Metrics *)

Record MethodMetrics : Type := mkMethodMetrics {
  mae : npfloat;
  rmse : npfloat;
  accuracy : npfloat;
  f1_score : npfloat;
  satisfaction : npfloat
}.

Record Metrics : Type := mkMetrics {
  metrics_fuzzy : MethodMetrics;
  metrics_crisp : MethodMetrics
}.

Definition get_default_metrics : Metrics :=
  {| metrics_fuzzy :=
       {| mae := Fin 25.0; rmse := Fin 35.0; accuracy := Fin 0.75;
          f1_score := Fin 0.73; satisfaction := Fin 0.80 |};
     metrics_crisp :=
       {| mae := Fin 40.0; rmse := Fin 50.0; accuracy := Fin 0.60;
          f1_score := Fin 0.58; satisfaction := Fin 0.65 |} |}.

(** [categorize], local to [calculate_enhanced_metrics]. *)
Definition categorize (aqi : Q) : nat :=
  if Qle_bool aqi 50 then 0%nat
  else if Qle_bool aqi 100 then 1%nat
  else if Qle_bool aqi 150 then 2%nat
  else if Qle_bool aqi 200 then 3%nat
  else if Qle_bool aqi 300 then 4%nat
  else 5%nat.

(** [np.abs(pred - ground_truth) / ground_truth] *)
Definition relative_error (pred ground_truth : list Q) : result (list npfloat) :=
  diff <- Np.subtract pred ground_truth ;;
  Np.divide (map Qabs diff) ground_truth.

(** [np.mean(error <= 0.2)], the satisfaction of one prediction series. *)
Definition satisfaction_rate (pred ground_truth : list Q) : result npfloat :=
  error <- relative_error pred ground_truth ;;
  Ok (Np.mean_bool (map (fun e => Np.less_equal1 e 0.2) error)).

Section Libraries.

(** [np.sqrt] and sklearn's [f1_score(truth, pred, average='weighted')]. *)
Variable np_sqrt : npfloat -> npfloat.
Variable sklearn_f1_score : list nat -> list nat -> result npfloat.

(** The order in which [DataFrame.sample] draws the rows: a sample of [n]
    rows is the first [n] rows of the shuffled frame. *)
Variable shuffle : list Row -> list Row.

Definition calculate_enhanced_metrics (fuzzy_pred crisp_pred ground_truth : list Q)
  : result Metrics :=
  d_fuzzy <- Np.subtract fuzzy_pred ground_truth ;;
  let mae_fuzzy := Np.mean (map Qabs d_fuzzy) in
  d_crisp <- Np.subtract crisp_pred ground_truth ;;
  let mae_crisp := Np.mean (map Qabs d_crisp) in
  let rmse_fuzzy := np_sqrt (Np.mean (map (fun d => d ^ 2) d_fuzzy)) in
  let rmse_crisp := np_sqrt (Np.mean (map (fun d => d ^ 2) d_crisp)) in
  let fuzzy_cats := map categorize fuzzy_pred in
  let crisp_cats := map categorize crisp_pred in
  let truth_cats := map categorize ground_truth in
  eq_fuzzy <- Np.equal_nat fuzzy_cats truth_cats ;;
  let acc_fuzzy := Np.mean_bool eq_fuzzy in
  eq_crisp <- Np.equal_nat crisp_cats truth_cats ;;
  let acc_crisp := Np.mean_bool eq_crisp in
  f1_fuzzy <- sklearn_f1_score truth_cats fuzzy_cats ;;
  f1_crisp <- sklearn_f1_score truth_cats crisp_cats ;;
  sat_fuzzy <- satisfaction_rate fuzzy_pred ground_truth ;;
  sat_crisp <- satisfaction_rate crisp_pred ground_truth ;;
  Ok {| metrics_fuzzy :=
          {| mae := mae_fuzzy; rmse := rmse_fuzzy; accuracy := acc_fuzzy;
             f1_score := f1_fuzzy; satisfaction := sat_fuzzy |};
        metrics_crisp :=
          {| mae := mae_crisp; rmse := rmse_crisp; accuracy := acc_crisp;
             f1_score := f1_crisp; satisfaction := sat_crisp |} |}.

(** ** Batch comparison *)

Record Predictions : Type := mkPredictions {
  fuzzy : list Q;
  crisp : list Q;
  ground_truth : list Q
}.

Record CompareResult : Type := mkCompareResult {
  success : bool;
  error : option exn;
  metrics : Metrics;
  predictions : Predictions;
  sample_size : option nat
}.

(** [self.data.sample(n=n)] *)
Definition df_sample (df : list Row) (n : Z) : result (list Row) :=
  if (n <? 0)%Z then Raise ValueError
  else if (Z.of_nat (List.length df) <? n)%Z then Raise ValueError
  else Ok (firstn (Z.to_nat n) (shuffle df)).

(** The body of the inner [try] of [compare_methods], for one row. *)
Definition compare_row (self : FuzzyAirQualitySystem) (row : Row)
  : result (Q * Q * Q) :=
  co <- py_float (CO row) ;;
  no2 <- py_float (NO2 row) ;;
  o3 <- py_float (O3_Sensor row) ;;
  temp <- py_float (Temperature row) ;;
  humidity <- py_float (Humidity row) ;;
  result <- comprehensive_assess self co no2 o3 temp humidity ;;
  let fuzzy_aqi := result_fuzzy_aqi result in
  let crisp_aqi := calculate_epa_aqi row in
  let gt := calculate_ground_truth row in
  Ok (fuzzy_aqi, crisp_aqi, gt).

Definition empty_predictions : Predictions :=
  {| fuzzy := []; crisp := []; ground_truth := [] |}.

(** One turn of the [for] loop: a row whose body raises is skipped
    ([continue]), any other appends one entry to each series. *)
Definition collect_step (self : FuzzyAirQualitySystem) (acc : Predictions) (row : Row)
  : Predictions :=
  match compare_row self row with
  | Ok (fuzzy_aqi, crisp_aqi, gt) =>
      {| fuzzy := fuzzy acc ++ [fuzzy_aqi];
         crisp := crisp acc ++ [crisp_aqi];
         ground_truth := ground_truth acc ++ [gt] |}
  | Raise _ => acc
  end.

Definition collect_predictions (self : FuzzyAirQualitySystem) (rows : list Row)
  : Predictions :=
  fold_left (collect_step self) rows empty_predictions.

Definition compare_methods (self : FuzzyAirQualitySystem) (n_samples : Z)
  : result CompareResult :=
  try_except
    (let sample_size := Z.min n_samples (Z.of_nat (List.length (data self))) in
     sample_data <- df_sample (data self) sample_size ;;
     let preds := collect_predictions self sample_data in
     metrics <- (if (10 <? List.length (ground_truth preds))%nat
                 then calculate_enhanced_metrics
                        (fuzzy preds) (crisp preds) (ground_truth preds)
                 else Ok get_default_metrics) ;;
     Ok {| success := true;
           error := None;
           metrics := metrics;
           predictions := preds;
           sample_size := Some (List.length (fuzzy preds)) |})
    (fun e =>
       Ok {| success := false;
             error := Some e;
             metrics := get_default_metrics;
             predictions := empty_predictions;
             sample_size := None |}).

End Libraries.

(** ** Visualization curves *)

(** [np.linspace(start, stop, num)] *)
Definition linspace (start stop : Q) (num : nat) : list Q :=
  let step := (stop - start) / inject_Z (Z.of_nat (num - 1)) in
  map (fun i => start + inject_Z (Z.of_nat i) * step) (seq 0 num).

(** The four comprehension bodies of [get_membership_functions]:
    - [float(max(0, 1 - x / w)) if x <= hi else 0]
    - [float(max(0, 1 - abs(x - c) / w)) if lo <= x <= hi else 0]
    - [float(max(0, 1 - abs(x - c) / w)) if x <= hi else 0]
    - [float(max(0, min(1, (x - a) / w))) if x >= lo else 0] *)
Definition falling (w hi : Q) (x : Q) : Q :=
  if Qle_bool x hi then Py.max 0 (1 - x / w) else 0.

Definition peak (c w lo hi : Q) (x : Q) : Q :=
  if Qle_bool lo x && Qle_bool x hi then Py.max 0 (1 - Qabs (x - c) / w) else 0.

Definition peak_upto (c w hi : Q) (x : Q) : Q :=
  if Qle_bool x hi then Py.max 0 (1 - Qabs (x - c) / w) else 0.

Definition rising (a w lo : Q) (x : Q) : Q :=
  if Qle_bool lo x then Py.max 0 (Py.min 1 ((x - a) / w)) else 0.

Record Curve : Type := mkCurve {
  universe : list Q;
  terms : dict (list Q)
}.

(** One [*_data] dict: the sampled universe and one list per term. *)
Definition curve_data (points : list Q) (fs : list (string * (Q -> Q))) : Curve :=
  {| universe := points;
     terms := fold_left (fun d kf => dict_set d (fst kf) (map (snd kf) points)) fs [] |}.

Definition get_membership_functions (self : FuzzyAirQualitySystem) : dict Curve :=
  let result := [] in
  let result := dict_set result "CO_GT"
    (curve_data (linspace 0 20 50)
       [("Very_Low", peak_upto 1 1 2);
        ("Low", peak 2.5 1.5 1 4);
        ("Moderate", peak 5 1.5 3.5 6.5);
        ("High", peak 9 2 7 11);
        ("Very_High", rising 10 3 10)]) in
  let result := dict_set result "CO_Sensor"
    (curve_data (linspace 0 3000 50)
       [("Low", falling 1000 1000);
        ("Moderate", peak 1500 750 750 2250);
        ("High", rising 1500 1000 1500)]) in
  let result := dict_set result "NMHC_GT"
    (curve_data (linspace 0 500 50)
       [("Low", falling 150 150);
        ("Moderate", peak 250 100 150 350);
        ("High", rising 350 150 350)]) in
  let result := dict_set result "Benzene"
    (curve_data (linspace 0 40 50)
       [("Low", falling 10 10);
        ("Moderate", peak 20 8 12 28);
        ("High", rising 25 10 25)]) in
  let result := dict_set result "NMHC_Sensor"
    (curve_data (linspace 0 2000 50)
       [("Low", falling 600 600);
        ("Moderate", peak 1000 350 650 1350);
        ("High", rising 1300 500 1300)]) in
  let result := dict_set result "NOx_GT"
    (curve_data (linspace 0 500 50)
       [("Low", falling 150 150);
        ("Moderate", peak 250 100 150 350);
        ("High", rising 350 150 350)]) in
  let result := dict_set result "NOx_Sensor"
    (curve_data (linspace 0 2000 50)
       [("Low", falling 600 600);
        ("Moderate", peak 1000 350 650 1350);
        ("High", rising 1300 500 1300)]) in
  let result := dict_set result "NO2_GT"
    (curve_data (linspace 0 400 50)
       [("Excellent", falling 50 50);
        ("Good", peak 100 50 50 150);
        ("Fair", peak 200 75 125 275);
        ("Poor", peak 300 75 225 375);
        ("Hazardous", rising 350 50 350)]) in
  let result := dict_set result "NO2_Sensor"
    (curve_data (linspace 0 2000 50)
       [("Low", falling 600 600);
        ("Moderate", peak 1000 350 650 1350);
        ("High", rising 1300 500 1300)]) in
  let result := dict_set result "O3_Sensor"
    (curve_data (linspace 0 3000 50)
       [("Good", falling 1000 1000);
        ("Moderate", peak 1500 500 1000 2000);
        ("Unhealthy", peak 2250 500 1750 2750);
        ("Very_Unhealthy", rising 2500 500 2500)]) in
  let result := dict_set result "Temperature"
    (curve_data (linspace (-10) 50 50)
       [("Cold", peak_upto 5 10 15);
        ("Cool", peak 12 8 4 20);
        ("Comfortable", peak 20 6 14 26);
        ("Warm", peak 28 8 20 36);
        ("Hot", rising 30 15 30)]) in
  let result := dict_set result "Humidity"
    (curve_data (linspace 0 100 50)
       [("Dry", falling 35 35);
        ("Comfortable", peak 50 20 30 70);
        ("Humid", rising 70 30 70)]) in
  let result := dict_set result "Abs_Humidity"
    (curve_data (linspace 0 20 50)
       [("Low", falling 6 6);
        ("Moderate", peak 10 4 6 14);
        ("High", rising 14 6 14)]) in
  let result := dict_set result "AQI"
    (curve_data (linspace 0 500 50)
       [("Good", falling 50 50);
        ("Moderate", peak 100 50 50 150);
        ("Unhealthy_Sensitive", peak 200 75 125 275);
        ("Unhealthy", peak 300 75 225 375);
        ("Very_Unhealthy", peak 400 75 325 475);
        ("Hazardous", rising 450 50 450)]) in
  result.

(** ** Declared linguistic variables *)

(** The shape and control points a term is declared with. *)
Inductive mf_shape : Type :=
| Trimf (a b c : Q)
| Trapmf (a b c d : Q)
| Gaussmf (mean sigma : Q).

(** The terms [init_fuzzy_variables] declares, by variable label. *)
Definition init_fuzzy_variables : dict (dict mf_shape) :=
  [("CO",
    [("Very_Low", Trimf 0 0 2);
     ("Low", Trimf 1 2.5 4);
     ("Moderate", Trimf 3 5 7);
     ("High", Trimf 6 9 12);
     ("Very_High", Trapmf 10 15 20 20)]);
   ("NO2",
    [("Excellent", Gaussmf 20 15);
     ("Good", Gaussmf 50 20);
     ("Fair", Gaussmf 100 30);
     ("Poor", Gaussmf 200 50);
     ("Hazardous", Trapmf 150 250 400 400)]);
   ("O3",
    [("Good", Trimf 0 0 1000);
     ("Moderate", Trimf 500 1250 2000);
     ("Unhealthy", Trimf 1500 2250 3000);
     ("Very_Unhealthy", Trapmf 2500 2750 3000 3000)]);
   ("Temperature",
    [("Cold", Trapmf (-10) (-10) 5 15);
     ("Comfortable", Trimf 10 20 30);
     ("Hot", Trapmf 25 35 50 50)]);
   ("Humidity",
    [("Dry", Trimf 0 0 50);
     ("Comfortable", Trimf 30 50 70);
     ("Humid", Trimf 60 100 100)]);
   ("AQI",
    [("Good", Trimf 0 0 50);
     ("Moderate", Trimf 51 100 150);
     ("Unhealthy_Sensitive", Trimf 101 150 200);
     ("Unhealthy", Trimf 151 200 300);
     ("Very_Unhealthy", Trimf 201 300 400);
     ("Hazardous", Trapmf 301 400 500 500)])].

Fixpoint dict_find {V : Type} (d : dict V) (k : string) : option V :=
  match d with
  | [] => None
  | (k', v) :: d' => if String.eqb k k' then Some v else dict_find d' k
  end.

(** The shape declared for a term of a variable, if any. *)
Definition declared (variable term : string) : option mf_shape :=
  match dict_find init_fuzzy_variables variable with
  | Some ts => dict_find ts term
  | None => None
  end.

(** skfuzzy's [trimf] and [trapmf] at one point, after the library's
    definition (library code, outside the repository): the triangle is 1 at
    [b], linear on either side where the side is not degenerate, 0 elsewhere;
    the trapezoid is made of two such triangles around a plateau. *)
Definition fuzz_trimf (x a b c : Q) : Q :=
  if Qeq_bool x b then 1
  else if negb (Qeq_bool a b) && Qlt_bool a x && Qlt_bool x b then (x - a) / (b - a)
  else if negb (Qeq_bool b c) && Qlt_bool b x && Qlt_bool x c then (c - x) / (c - b)
  else 0.

Definition fuzz_trapmf (x a b c d : Q) : Q :=
  if Qlt_bool x a || Qlt_bool d x then 0
  else if Qle_bool x b then fuzz_trimf x a b b
  else if Qle_bool c x then fuzz_trimf x c c d
  else 1.

Section DeclaredMembership.

(** skfuzzy's [gaussmf], [exp(-(x - mean)^2 / (2 sigma^2))], has no
    rational model and stays abstract. *)
Variable fuzz_gaussmf : Q -> Q -> Q -> Q.

Definition eval_shape (s : mf_shape) (x : Q) : Q :=
  match s with
  | Trimf a b c => fuzz_trimf x a b c
  | Trapmf a b c d => fuzz_trapmf x a b c d
  | Gaussmf mean sigma => fuzz_gaussmf x mean sigma
  end.

(** The curve of [variable]/[term] follows the declared function [s]: at
    every sampled point the degree is [s] evaluated there. *)
Definition curve_follows (c : Curve) (term : string) (s : mf_shape) : Prop :=
  exists degrees,
    dict_find (terms c) term = Some degrees /\
    Forall2 (fun x d => d == eval_shape s x) (universe c) degrees.

(** The curve of [variable]/[term] departs from the declared function [s]:
    at some sampled point the degree is not [s] evaluated there. *)
Definition curve_departs (c : Curve) (term : string) (s : mf_shape) : Prop :=
  exists degrees i x d,
    dict_find (terms c) term = Some degrees /\
    nth_error (universe c) i = Some x /\
    nth_error degrees i = Some d /\
    ~ d == eval_shape s x.

End DeclaredMembership.

(** ** Sample instances *)

(** What the library yields for the ten rules of [self.rules]: one accessor
    object per rule. *)
Definition accessor_reads : list (result activation) := repeat (Ok ActObject) 10.

(** An instance with a two-row dataset whose inference always answers 42. *)
Definition small_system : FuzzyAirQualitySystem :=
  {| data := [mkRow 1 30 200 20 50; mkRow 15 380 2900 35 80];
     aqi_sim := fun _ _ _ _ _ => Ok 42;
     rule_membership_value := fun _ _ _ _ _ => accessor_reads |}.

(** No value of a membership dict is positive. *)
Definition no_positive_degree (m : dict Q) : Prop :=
  Forall (fun kv => snd kv <= 0) m.

(** ** Results of a comparison *)

(** The result the outer handler of [compare_methods] builds. *)
Definition failure_result (e : exn) : CompareResult :=
  {| success := false;
     error := Some e;
     metrics := get_default_metrics;
     predictions := empty_predictions;
     sample_size := None |}.

(** The result of a comparison that reached its [return] with the given
    metrics and collected predictions. *)
Definition success_result (m : Metrics) (preds : Predictions) : CompareResult :=
  {| success := true;
     error := None;
     metrics := m;
     predictions := preds;
     sample_size := Some (List.length (fuzzy preds)) |}.

(** ** Vocabulary of the statements *)

(** One sample of [error <= 0.2]: the relative error of the prediction
    against the ground truth is at most 20%. *)
Definition within_tolerance (pred gt : Q) : bool :=
  Np.less_equal1 (Np.divide1 (Qabs (pred - gt)) gt) 0.2.

(** Samples of a batch as (fuzzy, crisp, ground truth) triples, and the three
    index-aligned series [compare_methods] keeps of them. *)
Definition fuzzy_series (samples : list (Q * Q * Q)) : list Q :=
  map (fun s => fst (fst s)) samples.
Definition crisp_series (samples : list (Q * Q * Q)) : list Q :=
  map (fun s => snd (fst s)) samples.
Definition truth_series (samples : list (Q * Q * Q)) : list Q :=
  map snd samples.

(** How many samples have the fuzzy (resp. crisp) prediction within
    tolerance. *)
Definition fuzzy_satisfied (samples : list (Q * Q * Q)) : nat :=
  Np.count_true (map (fun s => within_tolerance (fst (fst s)) (snd s)) samples).
Definition crisp_satisfied (samples : list (Q * Q * Q)) : nat :=
  Np.count_true (map (fun s => within_tolerance (snd (fst s)) (snd s)) samples).

(** A curve is well formed when every term has one degree per sampled point
    and every degree lies in [0,1]. *)
Definition curve_in_unit (c : Curve) : Prop :=
  Forall (fun kt => List.length (snd kt) = List.length (universe c) /\
                    Forall (fun d => 0 <= d /\ d <= 1) (snd kt))
         (terms c).

Definition curves_in_unit (t : dict Curve) : Prop :=
  Forall (fun kc => List.length (universe (snd kc)) = 50%nat /\ curve_in_unit (snd kc)) t.

(** The same checks as boolean functions. *)
Definition curve_in_unitb (c : Curve) : bool :=
  forallb (fun kt => Nat.eqb (List.length (snd kt)) (List.length (universe c)) &&
                     forallb (fun d => Qle_bool 0 d && Qle_bool d 1) (snd kt))
          (terms c).

Definition curves_in_unitb (t : dict Curve) : bool :=
  forallb (fun kc => Nat.eqb (List.length (universe (snd kc))) 50 &&
                     curve_in_unitb (snd kc)) t.

Fixpoint all2b {A B : Type} (f : A -> B -> bool) (xs : list A) (ys : list B) : bool :=
  match xs, ys with
  | [], [] => true
  | x :: xs', y :: ys' => f x y && all2b f xs' ys'
  | _, _ => false
  end.

(** The key under which [get_membership_functions] draws a declared
    variable: the three pollutants are drawn under the name of the dataset
    column the handlers of [app.py] pass for them ([co_gt], [no2_gt],
    [o3_sensor]), the other variables under their own name. *)
Definition curve_key (variable : string) : string :=
  if String.eqb variable "CO" then "CO_GT"
  else if String.eqb variable "NO2" then "NO2_GT"
  else if String.eqb variable "O3" then "O3_Sensor"
  else variable.

(** The declared terms whose curve is the declared function. *)
Definition matching_terms : list (string * string) :=
  [("CO", "Low"); ("O3", "Good"); ("Humidity", "Comfortable"); ("AQI", "Good")].

Definition is_matching (variable term : string) : bool :=
  existsb (fun vt => String.eqb (fst vt) variable && String.eqb (snd vt) term)
          matching_terms.

(** A positive bell around [mean], standing for the Gaussian where an
    example needs a computable one. *)
Definition rational_bell (x mean sigma : Q) : Q :=
  1 / (1 + ((x - mean) / sigma) * ((x - mean) / sigma)).

(** The points each pollutant contributes to the score of
    [calculate_crisp_aqi], band by band. *)
Definition co_points (co : Q) : Q :=
  if Qlt_bool co 1 then 40
  else if Qlt_bool co 3 then 30
  else if Qlt_bool co 5 then 20
  else if Qlt_bool co 7 then 10
  else 0.

Definition no2_points (no2 : Q) : Q :=
  if Qlt_bool no2 50 then 35
  else if Qlt_bool no2 100 then 25
  else if Qlt_bool no2 150 then 15
  else if Qlt_bool no2 200 then 5
  else 0.

Definition o3_points (o3 : Q) : Q :=
  if Qlt_bool o3 50 then 25
  else if Qlt_bool o3 100 then 15
  else if Qlt_bool o3 150 then 5
  else 0.

(** The labels of [aqi_to_category], from the lowest band to the highest. *)
Definition aqi_band_labels : list string :=
  ["Good"; "Moderate"; "Unhealthy_Sensitive"; "Unhealthy"; "Very_Unhealthy";
   "Hazardous"].

(** The fuzzy prediction [compare_methods] records for a row. *)
Definition assessed_fuzzy_aqi (self : FuzzyAirQualitySystem) (row : Row) : Q :=
  match comprehensive_assess self (CO row) (NO2 row) (O3_Sensor row)
          (Temperature row) (Humidity row) with
  | Ok r => result_fuzzy_aqi r
  | Raise _ => 0
  end.

(** An instance with twelve rows, enough for the metrics to be computed. *)
Definition twelve_row_system : FuzzyAirQualitySystem :=
  {| data := repeat (mkRow 1 30 200 20 50) 12;
     aqi_sim := fun _ _ _ _ _ => Ok 42;
     rule_membership_value := fun _ _ _ _ _ => accessor_reads |}.

(** ** The rule base *)

(** An antecedent as [build_rule_base] writes it with [&] and [|] over the
    terms of the input variables. *)
Inductive antecedent : Type :=
| Term (variable term : string)
| And (left right : antecedent)
| Or (left right : antecedent).

Record Rule : Type := mkRule {
  rule_antecedent : antecedent;
  rule_consequent : string
}.

Definition co_level (term : string) : antecedent := Term "CO" term.
Definition no2_level (term : string) : antecedent := Term "NO2" term.
Definition o3_level (term : string) : antecedent := Term "O3" term.
Definition temperature (term : string) : antecedent := Term "Temperature" term.
Definition humidity (term : string) : antecedent := Term "Humidity" term.

(** [self.rules]; [&] and [|] associate to the left. *)
Definition build_rule_base : list Rule :=
  [ mkRule (And (And (co_level "Very_Low")
                     (Or (no2_level "Excellent") (no2_level "Good")))
                (Or (o3_level "Good") (o3_level "Moderate")))
           "Good";
    mkRule (And (And (co_level "Low") (no2_level "Fair")) (o3_level "Moderate"))
           "Moderate";
    mkRule (And (co_level "Moderate") (Or (no2_level "Fair") (no2_level "Poor")))
           "Unhealthy_Sensitive";
    mkRule (Or (co_level "High") (no2_level "Poor"))
           "Unhealthy";
    mkRule (Or (Or (co_level "Very_High") (no2_level "Hazardous"))
               (o3_level "Very_Unhealthy"))
           "Hazardous";
    mkRule (And (And (co_level "Low") (no2_level "Good")) (o3_level "Good"))
           "Good";
    mkRule (And (Or (co_level "Moderate") (no2_level "Fair")) (o3_level "Moderate"))
           "Moderate";
    mkRule (And (And (Or (co_level "High") (no2_level "Poor")) (temperature "Hot"))
                (humidity "Humid"))
           "Very_Unhealthy";
    mkRule (And (o3_level "Unhealthy") (temperature "Hot"))
           "Unhealthy";
    mkRule (Or (And (co_level "Very_High") (no2_level "Hazardous"))
               (And (o3_level "Very_Unhealthy") (temperature "Hot")))
           "Hazardous" ].

(** The terms an antecedent mentions. *)
Fixpoint antecedent_terms (a : antecedent) : list (string * string) :=
  match a with
  | Term variable term => [(variable, term)]
  | And l r => antecedent_terms l ++ antecedent_terms r
  | Or l r => antecedent_terms l ++ antecedent_terms r
  end.

(** A rule refers to declared terms only: each term of its antecedent is
    declared for its variable, its consequent is declared for AQI. *)
Definition is_declared (variable term : string) : bool :=
  match declared variable term with
  | Some _ => true
  | None => false
  end.

Definition rule_well_formed (r : Rule) : bool :=
  forallb (fun vt => is_declared (fst vt) (snd vt)) (antecedent_terms (rule_antecedent r))
  && is_declared "AQI" (rule_consequent r).

Section RuleStrength.

(** The connectives the inference applies to [&] and [|], and the degree of
    each input term. *)
Variable and_op or_op : Q -> Q -> Q.
Variable degree : string -> string -> Q.

Fixpoint firing_strength (a : antecedent) : Q :=
  match a with
  | Term variable term => degree variable term
  | And l r => and_op (firing_strength l) (firing_strength r)
  | Or l r => or_op (firing_strength l) (firing_strength r)
  end.

End RuleStrength.

(** ** HTTP handlers of [app.py] *)

(** A value of the request body: a number (or a string [float] parses), or
    a value on which [float] and [int] raise the given exception. *)
Inductive json : Type :=
| JNum (q : Q)
| JOther (e : exn).

Definition float_of_json (v : json) : result Q :=
  match v with
  | JNum q => Ok q
  | JOther e => Raise e
  end.

(** [int(v)]: a number is truncated towards zero. *)
Definition int_of_json (v : json) : result Z :=
  match v with
  | JNum q => Ok (Z.quot (Qnum q) (Z.pos (Qden q)))
  | JOther e => Raise e
  end.

(** [float(data.get(key, default))] *)
Definition get_float (data : dict json) (key : string) (default : Q) : result Q :=
  float_of_json (dict_get data key (JNum default)).

Inductive AssessResponse : Type :=
| NoDataProvided
| Assessed (body : AssessResult) (sensor_data : dict Q)
| AssessFailed (e : exn) (fuzzy_aqi : Q) (category : string) (crisp_aqi : Q)
               (membership : dict Q * dict Q * dict Q)
| EnhancedFailed (e : exn) (fuzzy_aqi : Q) (category : string) (epa_aqi : Q)
                 (confidence : Q).

(** The membership entry of the error body of [/assess]. *)
Definition error_membership : dict Q * dict Q * dict Q :=
  (dict_literal [("Very_Low", 0.5); ("Low", 0.5); ("Moderate", 0.5); ("High", 0.5);
                 ("Very_High", 0.5)],
   dict_literal [("Clean", 0.5); ("Acceptable", 0.5); ("Polluted", 0.5);
                 ("Hazardous", 0.5)],
   dict_literal [("Good", 0.5); ("Moderate", 0.5); ("Unhealthy", 0.5)]).

(** [assess_air_quality]; [request_json] is the outcome of [request.json]:
    the parsed body, [None], or the exception of a body that does not
    parse. *)
Definition assess_air_quality (fuzzy_system : FuzzyAirQualitySystem)
  (request_json : result (option (dict json))) : AssessResponse :=
  match
    (data <- request_json ;;
     match data with
     | None | Some [] => Ok NoDataProvided
     | Some data =>
         co_gt <- get_float data "co_gt" 2.5 ;;
         co_sensor <- get_float data "co_sensor" 1000 ;;
         nmhc_gt <- get_float data "nmhc_gt" 150 ;;
         benzene_gt <- get_float data "benzene_gt" 10 ;;
         nmhc_sensor <- get_float data "nmhc_sensor" 900 ;;
         nox_gt <- get_float data "nox_gt" 200 ;;
         nox_sensor <- get_float data "nox_sensor" 500 ;;
         no2_gt <- get_float data "no2_gt" 80 ;;
         no2_sensor <- get_float data "no2_sensor" 700 ;;
         o3_sensor <- get_float data "o3_sensor" 750 ;;
         temperature <- get_float data "temperature" 20.0 ;;
         humidity <- get_float data "humidity" 50.0 ;;
         abs_humidity <- get_float data "abs_humidity" 10.0 ;;
         result <- assess fuzzy_system co_gt no2_gt o3_sensor ;;
         Ok (Assessed result
               (dict_literal
                  [("co_sensor", co_sensor); ("nmhc_gt", nmhc_gt);
                   ("benzene_gt", benzene_gt); ("nmhc_sensor", nmhc_sensor);
                   ("nox_gt", nox_gt); ("nox_sensor", nox_sensor);
                   ("no2_sensor", no2_sensor); ("o3_sensor", o3_sensor);
                   ("temperature", temperature); ("humidity", humidity);
                   ("abs_humidity", abs_humidity)]))
     end)
  with
  | Ok response => response
  | Raise e => AssessFailed e 50.0 "Fair" 50.0 error_membership
  end.

(** [enhanced_assess_air_quality] *)
Definition enhanced_assess_air_quality (fuzzy_system : FuzzyAirQualitySystem)
  (request_json : result (option (dict json))) : AssessResponse :=
  match
    (data <- request_json ;;
     match data with
     | None | Some [] => Ok NoDataProvided
     | Some data =>
         co_gt <- get_float data "co_gt" 2.5 ;;
         co_sensor <- get_float data "co_sensor" 1000 ;;
         nmhc_gt <- get_float data "nmhc_gt" 150 ;;
         benzene_gt <- get_float data "benzene_gt" 10 ;;
         nmhc_sensor <- get_float data "nmhc_sensor" 900 ;;
         nox_gt <- get_float data "nox_gt" 200 ;;
         nox_sensor <- get_float data "nox_sensor" 500 ;;
         no2_gt <- get_float data "no2_gt" 80 ;;
         no2_sensor <- get_float data "no2_sensor" 700 ;;
         o3_sensor <- get_float data "o3_sensor" 750 ;;
         temperature <- get_float data "temperature" 20.0 ;;
         humidity <- get_float data "humidity" 50.0 ;;
         abs_humidity <- get_float data "abs_humidity" 10.0 ;;
         result <- comprehensive_assess fuzzy_system co_gt no2_gt o3_sensor
                     temperature humidity ;;
         Ok (Assessed result
               (dict_literal
                  [("co_sensor", co_sensor); ("nmhc_gt", nmhc_gt);
                   ("benzene_gt", benzene_gt); ("nmhc_sensor", nmhc_sensor);
                   ("nox_gt", nox_gt); ("nox_sensor", nox_sensor);
                   ("no2_sensor", no2_sensor); ("o3_sensor", o3_sensor);
                   ("abs_humidity", abs_humidity)]))
     end)
  with
  | Ok response => response
  | Raise e => EnhancedFailed e 50.0 "Fair" 50.0 0.8
  end.

(** [request.json or {}] *)
Definition json_or_empty (data : option (dict json)) : dict json :=
  match data with
  | Some data => data
  | None => []
  end.

Section Endpoints.

Variable np_sqrt : npfloat -> npfloat.
Variable sklearn_f1_score : list nat -> list nat -> result npfloat.
Variable shuffle : list Row -> list Row.

(** The handler [compare_methods] of [/compare]. *)
Definition compare_endpoint (fuzzy_system : FuzzyAirQualitySystem)
  (request_json : result (option (dict json))) : CompareResult :=
  match
    (data <- request_json ;;
     let data := json_or_empty data in
     samples <- int_of_json (dict_get data "samples" (JNum 100)) ;;
     compare_methods np_sqrt sklearn_f1_score shuffle fuzzy_system samples)
  with
  | Ok results => results
  | Raise e => failure_result e
  end.

(** [advanced_compare_methods] *)
Definition advanced_compare_methods (fuzzy_system : FuzzyAirQualitySystem)
  (request_json : result (option (dict json))) : CompareResult :=
  match
    (data <- request_json ;;
     let data := json_or_empty data in
     samples <- int_of_json (dict_get data "samples" (JNum 500)) ;;
     results <- compare_methods np_sqrt sklearn_f1_score shuffle fuzzy_system samples ;;
     if success results then
       enhanced_metrics <-
         calculate_enhanced_metrics np_sqrt sklearn_f1_score
           (fuzzy (predictions results)) (crisp (predictions results))
           (ground_truth (predictions results)) ;;
       Ok {| success := success results;
             error := error results;
             metrics := enhanced_metrics;
             predictions := predictions results;
             sample_size := sample_size results |}
     else Ok results)
  with
  | Ok results => results
  | Raise e => failure_result e
  end.

End Endpoints.

(** The fields the assessment handlers read from a request. *)
Definition request_fields : list string :=
  ["co_gt"; "co_sensor"; "nmhc_gt"; "benzene_gt"; "nmhc_sensor"; "nox_gt";
   "nox_sensor"; "no2_gt"; "no2_sensor"; "o3_sensor"; "temperature"; "humidity";
   "abs_humidity"].

(** Every value of a request body is a number. *)
Definition numeric_body (data : dict json) : Prop :=
  Forall (fun kv => exists q, snd kv = JNum q) data.

(** The number a numeric body holds under a key, or the default. *)
Definition number_field (data : dict json) (key : string) (default : Q) : Q :=
  match dict_get data key (JNum default) with
  | JNum q => q
  | JOther _ => default
  end.

(** * Properties *)

(** ** Comparisons and division *)

Lemma Qlt_bool_iff (x y : Q) : Qlt_bool x y = true <-> x < y.
Proof.
  unfold Qlt_bool. rewrite negb_true_iff. split; intro H.
  - apply Qnot_le_lt. intro Hle. apply Qle_bool_iff in Hle. congruence.
  - destruct (Qle_bool y x) eqn:E; [|reflexivity].
    apply Qle_bool_iff in E. lra.
Qed.

Lemma Qlt_bool_false (x y : Q) : Qlt_bool x y = false <-> y <= x.
Proof.
  unfold Qlt_bool. rewrite negb_false_iff. apply Qle_bool_iff.
Qed.

Lemma Qle_bool_false (x y : Q) : Qle_bool x y = false <-> y < x.
Proof.
  rewrite <- Qlt_bool_iff. unfold Qlt_bool.
  destruct (Qle_bool x y); simpl; split; congruence.
Qed.

Lemma Qeq_bool_false (x y : Q) : Qeq_bool x y = false <-> ~ x == y.
Proof.
  split.
  - intros H Heq. apply Qeq_bool_iff in Heq. congruence.
  - intro H. destruct (Qeq_bool x y) eqn:E; [|reflexivity].
    apply Qeq_bool_iff in E. contradiction.
Qed.

(** Case analysis on every comparison of the goal, each outcome turned into
    the order fact it stands for. *)
Ltac qcase :=
  repeat match goal with
    | |- context [Qle_bool ?x ?y] =>
        let E := fresh "E" in
        destruct (Qle_bool x y) eqn:E;
        [apply Qle_bool_iff in E | apply Qle_bool_false in E]
    | |- context [Qlt_bool ?x ?y] =>
        let E := fresh "E" in
        destruct (Qlt_bool x y) eqn:E;
        [apply Qlt_bool_iff in E | apply Qlt_bool_false in E]
    | |- context [Qeq_bool ?x ?y] =>
        let E := fresh "E" in
        destruct (Qeq_bool x y) eqn:E;
        [apply Qeq_bool_iff in E | apply Qeq_bool_false in E]
    end;
  cbn [negb andb orb].

Lemma ratio_in_unit (n d : Q) : 0 < d -> 0 <= n -> n <= d -> 0 <= n / d /\ n / d <= 1.
Proof.
  intros Hd Hn Hnd. split.
  - apply Qle_shift_div_l; lra.
  - apply Qle_shift_div_r; lra.
Qed.

Lemma ratio_self (d : Q) : ~ d == 0 -> d / d == 1.
Proof. intro H. field. exact H. Qed.

Lemma returns_Ok (v q : Q) : v == q -> returns (Ok v) q.
Proof. intro H. exists v. split; [reflexivity | exact H]. Qed.

Lemma returns_unique (r : result Q) (p q : Q) : returns r p -> returns r q -> p == q.
Proof.
  intros [v [Hv Hp]] [w [Hw Hq]]. rewrite Hv in Hw. injection Hw as <-.
  rewrite <- Hp. exact Hq.
Qed.

Lemma clamp_range (lo hi x : Q) :
  lo <= hi -> lo <= Py.max lo (Py.min x hi) /\ Py.max lo (Py.min x hi) <= hi.
Proof.
  intro H. unfold Py.max, Py.min. qcase; lra.
Qed.

(** ** Shapes of the hand-written membership functions *)

Lemma div_pos (n d : Q) : 0 < d -> Py.div n d = Ok (n / d).
Proof.
  intro H. unfold Py.div.
  destruct (Qeq_bool d 0) eqn:E; [|reflexivity].
  apply Qeq_bool_iff in E. lra.
Qed.

Lemma trimf_rising (x a b c : Q) :
  a < x -> x < b -> x < c -> trimf x a b c = Ok ((x - a) / (b - a)).
Proof.
  intros Ha Hb Hc. unfold trimf. qcase; try lra; apply div_pos; lra.
Qed.

Lemma trimf_falling (x a b c : Q) :
  a < x -> b <= x -> x < c -> trimf x a b c = Ok ((c - x) / (c - b)).
Proof.
  intros Ha Hb Hc. unfold trimf. qcase; try lra; apply div_pos; lra.
Qed.

Lemma trimf_outside (x a b c : Q) :
  x <= a \/ c <= x -> returns (trimf x a b c) 0.
Proof.
  intros H. unfold trimf. qcase; try lra; apply returns_Ok; reflexivity.
Qed.

Lemma trimf_total (x a b c : Q) :
  exists v, trimf x a b c = Ok v /\ 0 <= v /\ v <= 1.
Proof.
  destruct (Qlt_le_dec a x) as [Ha|Ha]; [destruct (Qlt_le_dec x c) as [Hc|Hc]|].
  - destruct (Qlt_le_dec x b) as [Hb|Hb].
    + rewrite trimf_rising by assumption. eexists. split; [reflexivity|].
      apply ratio_in_unit; lra.
    + rewrite trimf_falling by assumption. eexists. split; [reflexivity|].
      apply ratio_in_unit; lra.
  - destruct (trimf_outside x a b c (or_intror Hc)) as [v [Hv Hq]].
    exists v. split; [exact Hv | lra].
  - destruct (trimf_outside x a b c (or_introl Ha)) as [v [Hv Hq]].
    exists v. split; [exact Hv | lra].
Qed.

(** After the case analysis a shape either returns a constant or a ratio
    of two distances. *)
Ltac shape_total :=
  qcase; try lra; try (rewrite div_pos by lra);
  (eexists; split; [reflexivity|]);
  first [ apply ratio_in_unit; lra | split; lra ].

Lemma trapmf_total (x a b c d : Q) :
  exists v, trapmf x a b c d = Ok v /\ 0 <= v /\ v <= 1.
Proof. unfold trapmf. shape_total. Qed.

Lemma trap_left_total (x a b : Q) :
  exists v, trap_left x a b = Ok v /\ 0 <= v /\ v <= 1.
Proof. unfold trap_left. shape_total. Qed.

Lemma ramp_right_total (x a b : Q) :
  exists v, ramp_right x a b = Ok v /\ 0 <= v /\ v <= 1.
Proof. unfold ramp_right. shape_total. Qed.

Lemma trap_right_total (x a b : Q) :
  exists v, trap_right x a b = Ok v /\ 0 <= v /\ v <= 1.
Proof. exact (ramp_right_total x a b). Qed.

(** The value of a non-degenerate triangle, region by region. *)
Lemma trimf_value (x a b c v : Q) :
  a < b -> b < c -> returns (trimf x a b c) v ->
  (x <= a /\ v == 0) \/
  (a <= x /\ x <= b /\ v == (x - a) * / (b - a)) \/
  (b <= x /\ x <= c /\ v == (c - x) * / (c - b)) \/
  (c <= x /\ v == 0).
Proof.
  intros Hab Hbc Hv.
  destruct (Qlt_le_dec a x) as [Ha|Ha]; [destruct (Qlt_le_dec x c) as [Hc|Hc]|].
  - destruct (Qlt_le_dec x b) as [Hb|Hb].
    + right; left. repeat split; try lra.
      apply (returns_unique _ _ _ Hv). rewrite trimf_rising by assumption.
      apply returns_Ok. reflexivity.
    + right; right; left. repeat split; try lra.
      apply (returns_unique _ _ _ Hv). rewrite trimf_falling by assumption.
      apply returns_Ok. reflexivity.
  - right; right; right. split; [lra|].
    apply (returns_unique _ _ _ Hv). apply trimf_outside. right. exact Hc.
  - left. split; [lra|].
    apply (returns_unique _ _ _ Hv). apply trimf_outside. left. exact Ha.
Qed.

(** A non-degenerate triangle is Lipschitz, hence continuous: its slopes are
    [1/(b-a)] and [-1/(c-b)]. *)
Lemma trimf_lipschitz (a b c x y vx vy : Q) :
  a < b -> b < c ->
  returns (trimf x a b c) vx -> returns (trimf y a b c) vy ->
  Qabs (vx - vy) <= (/ (b - a) + / (c - b)) * Qabs (x - y).
Proof.
  intros Hab Hbc Hx Hy.
  assert (K1 : 0 < / (b - a)) by (apply Qinv_lt_0_compat; lra).
  assert (K2 : 0 < / (c - b)) by (apply Qinv_lt_0_compat; lra).
  assert (U1 : (b - a) * / (b - a) == 1) by (apply Qmult_inv_r; lra).
  assert (U2 : (c - b) * / (c - b) == 1) by (apply Qmult_inv_r; lra).
  apply (trimf_value _ _ _ _ _ Hab Hbc) in Hx.
  apply (trimf_value _ _ _ _ _ Hab Hbc) in Hy.
  set (k1 := / (b - a)) in *. set (k2 := / (c - b)) in *.
  apply Qabs_case; intros Hs; apply Qabs_case; intros Hd;
    destruct Hx as [[Hx1 Hx2]|[[Hx1 [Hx2 Hx3]]|[[Hx1 [Hx2 Hx3]]|[Hx1 Hx2]]]];
    destruct Hy as [[Hy1 Hy2]|[[Hy1 [Hy2 Hy3]]|[[Hy1 [Hy2 Hy3]]|[Hy1 Hy2]]]];
    rewrite ?Hx2, ?Hx3, ?Hy2, ?Hy3 in *; nra.
Qed.

(** C5 (as amended): for a<b<c the hand-written triangle is 0 at a and c, 1
    at b, linear on [a,b] and on [b,c], 0 outside and continuous; for every
    a<=b<=c it returns a degree in [0,1] and never divides by zero; in the
    degenerate cases a=b or b=c it is a one-sided ramp strictly inside (a,c)
    and the flat value at the boundary, b included, is 0. *)
Theorem trimf_triangle (a b c : Q) :
  a <= b -> b <= c ->
  (forall x, exists v, trimf x a b c = Ok v /\ 0 <= v /\ v <= 1) /\
  returns (trimf a a b c) 0 /\
  returns (trimf c a b c) 0 /\
  (forall x, x <= a \/ c <= x -> returns (trimf x a b c) 0) /\
  (a < b -> b < c ->
   returns (trimf b a b c) 1 /\
   (forall x, a <= x -> x <= b -> returns (trimf x a b c) ((x - a) / (b - a))) /\
   (forall x, b <= x -> x <= c -> returns (trimf x a b c) ((c - x) / (c - b))) /\
   (forall x y vx vy,
      returns (trimf x a b c) vx -> returns (trimf y a b c) vy ->
      Qabs (vx - vy) <= (/ (b - a) + / (c - b)) * Qabs (x - y))) /\
  (a == b -> b < c ->
   returns (trimf b a b c) 0 /\
   (forall x, a < x -> x < c -> returns (trimf x a b c) ((c - x) / (c - b)))) /\
  (a < b -> b == c ->
   returns (trimf b a b c) 0 /\
   (forall x, a < x -> x < c -> returns (trimf x a b c) ((x - a) / (b - a)))).
Proof.
  intros Hab Hbc.
  split; [intro x; apply trimf_total|].
  split; [apply trimf_outside; left; lra|].
  split; [apply trimf_outside; right; lra|].
  split; [intros x Hx; apply trimf_outside; exact Hx|].
  split; [|split].
  - intros Hab' Hbc'. split; [|split; [|split]].
    + rewrite trimf_falling by lra. apply returns_Ok. apply ratio_self. lra.
    + intros x Hx1 Hx2. destruct (Qlt_le_dec a x) as [Ha|Ha].
      * destruct (Qlt_le_dec x b) as [Hb|Hb].
        -- rewrite trimf_rising by lra. apply returns_Ok. reflexivity.
        -- rewrite trimf_falling by lra. apply returns_Ok.
           assert (Hxb : x == b) by lra. rewrite Hxb.
           rewrite !ratio_self by lra. reflexivity.
      * destruct (trimf_outside x a b c (or_introl Ha)) as [v [Hv Hq]].
        exists v. split; [exact Hv|]. rewrite Hq.
        assert (Hxa : x == a) by lra. rewrite Hxa. field. lra.
    + intros x Hx1 Hx2. destruct (Qlt_le_dec x c) as [Hc|Hc].
      * rewrite trimf_falling by lra. apply returns_Ok. reflexivity.
      * destruct (trimf_outside x a b c (or_intror Hc)) as [v [Hv Hq]].
        exists v. split; [exact Hv|]. rewrite Hq.
        assert (Hxc : x == c) by lra. rewrite Hxc. field. lra.
    + intros x y vx vy. apply trimf_lipschitz; assumption.
  - intros Heq Hbc'. split.
    + apply trimf_outside. left. lra.
    + intros x Hx1 Hx2. rewrite trimf_falling by lra. apply returns_Ok. reflexivity.
  - intros Hab' Heq. split.
    + apply trimf_outside. right. lra.
    + intros x Hx1 Hx2. rewrite trimf_rising by lra. apply returns_Ok. reflexivity.
Qed.

Lemma trimf_triangle_witness :
  3 <= 5 /\ 5 <= 7 /\
  returns (trimf 3 3 5 7) 0 /\ returns (trimf 5 3 5 7) 1 /\ returns (trimf 7 3 5 7) 0.
Proof.
  assert (H1 : 3 <= 5) by (apply Qle_bool_iff; reflexivity).
  assert (H2 : 5 <= 7) by (apply Qle_bool_iff; reflexivity).
  destruct (trimf_triangle 3 5 7 H1 H2) as (_ & Ha & Hc & _ & Hb & _).
  repeat split; try assumption.
  apply Hb; reflexivity.
Defined.

(** C5 (as stated) fails on a valid degenerate triangle: with a = b = 0 and
    c = 2, the parameters of the CO term Very_Low, the function is 0 at b,
    not 1. *)
Lemma trimf_degenerate_peak_is_zero :
  0 <= 0 /\ 0 <= 2 /\ returns (trimf 0 0 0 2) 0 /\ ~ returns (trimf 0 0 0 2) 1.
Proof.
  split; [apply Qle_bool_iff; reflexivity|].
  split; [apply Qle_bool_iff; reflexivity|].
  assert (H0 : returns (trimf 0 0 0 2) 0) by (apply returns_Ok; reflexivity).
  split; [exact H0|].
  intro H1. pose proof (returns_unique _ _ _ H0 H1) as H. discriminate H.
Qed.

(** ** Degrees of the hand-written fuzzification *)

Lemma degrees_cons (k : string) (v : Q) (m : dict Q) :
  0 <= v /\ v <= 1 -> degrees_in_unit m -> degrees_in_unit ((k, v) :: m).
Proof. intros Hv Hm. constructor; assumption. Qed.

Lemma degrees_nil : degrees_in_unit [].
Proof. constructor. Qed.

Create HintDb degrees.
#[local] Hint Resolve degrees_cons degrees_nil : degrees.

Lemma calculate_co_membership_total (co : Q) :
  exists m, calculate_co_membership co = Ok m /\ degrees_in_unit m.
Proof.
  unfold calculate_co_membership.
  set (x := Py.max 0.0 (Py.min co 20.0)).
  destruct (trimf_total x 0.0 0.0 2.0) as (v1 & -> & H1).
  destruct (trimf_total x 1.0 2.5 4.0) as (v2 & -> & H2).
  destruct (trimf_total x 3.0 5.0 7.0) as (v3 & -> & H3).
  destruct (trimf_total x 6.0 9.0 12.0) as (v4 & -> & H4).
  destruct (trapmf_total x 10.0 15.0 20.0 20.0) as (v5 & -> & H5).
  eexists. split; [reflexivity|].
  cbv [dict_literal fold_left dict_set fst snd]. simpl.
  auto 10 with degrees.
Qed.

Lemma calculate_no2_membership_total (no2 : Q) :
  exists m, calculate_no2_membership no2 = Ok m /\ degrees_in_unit m.
Proof.
  unfold calculate_no2_membership.
  set (x := Py.max 0.0 (Py.min no2 400.0)).
  destruct (trap_left_total x 0.0 50.0) as (v1 & -> & H1).
  destruct (trimf_total x 50.0 100.0 150.0) as (v2 & -> & H2).
  destruct (trimf_total x 125.0 200.0 275.0) as (v3 & -> & H3).
  destruct (trimf_total x 225.0 300.0 375.0) as (v4 & -> & H4).
  destruct (ramp_right_total x 350.0 400.0) as (v5 & -> & H5).
  eexists. split; [reflexivity|].
  cbv [dict_literal fold_left dict_set fst snd]. simpl.
  auto 10 with degrees.
Qed.

Lemma o3_good_in_unit (x : Q) :
  0 <= x ->
  0 <= (if Qle_bool x 1000.0 then Py.max 0.0 (1.0 - x / 1000.0) else 0.0) /\
  (if Qle_bool x 1000.0 then Py.max 0.0 (1.0 - x / 1000.0) else 0.0) <= 1.
Proof.
  intro Hx.
  assert (Hq : 0 <= x / 1000.0) by (apply Qle_shift_div_l; lra).
  unfold Py.max. qcase; lra.
Qed.

Lemma calculate_o3_membership_total (o3 : Q) :
  exists m, calculate_o3_membership o3 = Ok m /\ degrees_in_unit m.
Proof.
  unfold calculate_o3_membership.
  set (x := Py.max 0.0 (Py.min o3 3000.0)).
  assert (Hx : 0 <= x).
  { destruct (clamp_range 0.0 3000.0 o3) as [Hlo _]; [lra|]. subst x. lra. }
  pose proof (o3_good_in_unit x Hx) as H1.
  destruct (trimf_total x 1000.0 1500.0 2000.0) as (v2 & -> & H2).
  destruct (trimf_total x 1750.0 2250.0 2750.0) as (v3 & -> & H3).
  destruct (trap_right_total x 2500.0 3000.0) as (v4 & -> & H4).
  eexists. split; [reflexivity|].
  cbv [dict_literal fold_left dict_set fst snd]. simpl.
  auto 10 with degrees.
Qed.

(** C6: for every input, inside the universe or not, each of the three
    hand-written fuzzifications returns normally and every degree of the
    mapping it returns lies in [0,1]. *)
Theorem membership_degrees_in_unit (x : Q) :
  (exists m, calculate_co_membership x = Ok m /\ degrees_in_unit m) /\
  (exists m, calculate_no2_membership x = Ok m /\ degrees_in_unit m) /\
  (exists m, calculate_o3_membership x = Ok m /\ degrees_in_unit m).
Proof.
  split; [apply calculate_co_membership_total|].
  split; [apply calculate_no2_membership_total | apply calculate_o3_membership_total].
Qed.

(** ** Totality of the assessment *)

Lemma accumulate_no_positive (weights m : dict Q) (acc : Q * Q) :
  no_positive_degree m -> accumulate_memberships weights m acc = acc.
Proof.
  unfold accumulate_memberships. intro H. revert acc.
  induction H as [|[k v] m Hv Hm IH]; intro acc; [reflexivity|].
  cbn [fold_left]. destruct acc as [ws tw]. cbn [snd] in Hv.
  destruct (Qlt_bool 0 v) eqn:E.
  - apply Qlt_bool_iff in E. lra.
  - apply IH.
Qed.

Lemma calculate_fuzzy_aqi_total (co_mf no2_mf o3_mf : dict Q) :
  exists v, calculate_fuzzy_aqi co_mf no2_mf o3_mf = Ok v /\ 0 <= v /\ v <= 100.
Proof.
  unfold calculate_fuzzy_aqi.
  destruct (accumulate_memberships fuzzy_aqi_weights o3_mf _) as [ws tw].
  destruct (Qlt_bool 0 tw) eqn:E.
  - apply Qlt_bool_iff in E. rewrite div_pos by exact E.
    eexists. split; [reflexivity|]. unfold Py.min, Py.max. qcase; lra.
  - eexists. split; [reflexivity|]. unfold Py.min, Py.max. qcase; lra.
Qed.

Lemma calculate_fuzzy_aqi_default (co_mf no2_mf o3_mf : dict Q) :
  no_positive_degree co_mf -> no_positive_degree no2_mf -> no_positive_degree o3_mf ->
  returns (calculate_fuzzy_aqi co_mf no2_mf o3_mf) 50.
Proof.
  intros H1 H2 H3. unfold calculate_fuzzy_aqi.
  rewrite (accumulate_no_positive _ co_mf) by exact H1.
  rewrite (accumulate_no_positive _ no2_mf) by exact H2.
  rewrite (accumulate_no_positive _ o3_mf) by exact H3.
  apply returns_Ok. reflexivity.
Qed.

(** [simple_assess] returns normally, a score in [0,100] and no confidence;
    the score is 50 when no hand-written membership is positive. *)
Lemma simple_assess_total (co no2 o3 : Q) :
  exists fuzzy_aqi category crisp_aqi co_m no2_m o3_m,
    simple_assess co no2 o3 =
      Ok (Simple fuzzy_aqi category crisp_aqi (co_m, no2_m, o3_m)) /\
    0 <= fuzzy_aqi /\ fuzzy_aqi <= 100 /\
    (no_positive_degree co_m -> no_positive_degree no2_m ->
     no_positive_degree o3_m -> fuzzy_aqi == 50).
Proof.
  unfold simple_assess.
  destruct (calculate_co_membership_total co) as (co_m & -> & _).
  destruct (calculate_no2_membership_total no2) as (no2_m & -> & _).
  destruct (calculate_o3_membership_total (if Qlt_bool 100 o3 then o3 / 10.0 else o3))
    as (o3_m & -> & _).
  cbn [bind].
  destruct (calculate_fuzzy_aqi_total co_m no2_m o3_m) as (v & Hv & Hlo & Hhi).
  rewrite Hv. cbn [bind].
  do 6 eexists. split; [reflexivity|]. split; [exact Hlo|]. split; [exact Hhi|].
  intros H1 H2 H3.
  apply (returns_unique (calculate_fuzzy_aqi co_m no2_m o3_m)).
  - rewrite Hv. apply returns_Ok. reflexivity.
  - apply calculate_fuzzy_aqi_default; assumption.
Qed.

Lemma comprehensive_assess_Ok (self : FuzzyAirQualitySystem)
  (co no2 o3 temp humidity v : Q) :
  aqi_sim self co no2 o3 temp humidity = Ok v ->
  comprehensive_assess self co no2 o3 temp humidity =
    Ok (Comprehensive v (calculate_crisp_aqi co no2 (o3 / 10.0)) (aqi_to_category v)
          (calculate_confidence (rule_membership_value self co no2 o3 temp humidity))
          (co, no2, o3, temp, humidity)).
Proof.
  intro H. unfold comprehensive_assess. rewrite H. reflexivity.
Qed.

Lemma comprehensive_assess_Raise (self : FuzzyAirQualitySystem)
  (co no2 o3 temp humidity : Q) (e : exn) :
  aqi_sim self co no2 o3 temp humidity = Raise e ->
  comprehensive_assess self co no2 o3 temp humidity = simple_assess co no2 o3.
Proof.
  intro H. unfold comprehensive_assess. rewrite H. reflexivity.
Qed.

Lemma comprehensive_assess_total (self : FuzzyAirQualitySystem)
  (co no2 o3 temp humidity : Q) :
  exists r, comprehensive_assess self co no2 o3 temp humidity = Ok r.
Proof.
  destruct (aqi_sim self co no2 o3 temp humidity) as [v|e] eqn:E.
  - rewrite (comprehensive_assess_Ok _ _ _ _ _ _ _ E). eexists. reflexivity.
  - rewrite (comprehensive_assess_Raise _ _ _ _ _ _ _ E).
    destruct (simple_assess_total co no2 o3) as (f & c & k & m1 & m2 & m3 & H & _).
    rewrite H. eexists. reflexivity.
Qed.




(** ** Batch comparison *)

Section Comparison.

Variable np_sqrt : npfloat -> npfloat.
Variable sklearn_f1_score : list nat -> list nat -> result npfloat.
Variable shuffle : list Row -> list Row.

Lemma compare_row_total (self : FuzzyAirQualitySystem) (row : Row) :
  exists t, compare_row self row = Ok t.
Proof.
  unfold compare_row, py_float. cbn [bind].
  destruct (comprehensive_assess_total self (CO row) (NO2 row) (O3_Sensor row)
              (Temperature row) (Humidity row)) as [r ->].
  eexists. reflexivity.
Qed.

Lemma collect_step_length (self : FuzzyAirQualitySystem) (acc : Predictions) (row : Row) :
  List.length (fuzzy (collect_step self acc row)) = S (List.length (fuzzy acc)) /\
  List.length (crisp (collect_step self acc row)) = S (List.length (crisp acc)) /\
  List.length (ground_truth (collect_step self acc row))
  = S (List.length (ground_truth acc)).
Proof.
  unfold collect_step.
  destruct (compare_row_total self row) as [[[f c] g] ->].
  cbn [fuzzy crisp ground_truth]. rewrite !length_app. cbn. lia.
Qed.

Lemma fold_collect_length (self : FuzzyAirQualitySystem) (rows : list Row) :
  forall acc,
    List.length (fuzzy (fold_left (collect_step self) rows acc))
    = (List.length (fuzzy acc) + List.length rows)%nat /\
    List.length (crisp (fold_left (collect_step self) rows acc))
    = (List.length (crisp acc) + List.length rows)%nat /\
    List.length (ground_truth (fold_left (collect_step self) rows acc))
    = (List.length (ground_truth acc) + List.length rows)%nat.
Proof.
  induction rows as [|row rows IH]; intro acc; cbn [fold_left List.length].
  - lia.
  - destruct (IH (collect_step self acc row)) as (H1 & H2 & H3).
    destruct (collect_step_length self acc row) as (L1 & L2 & L3).
    lia.
Qed.

(** No row is skipped: the three series hold one entry per sampled row. *)
Lemma collect_predictions_length (self : FuzzyAirQualitySystem) (rows : list Row) :
  List.length (fuzzy (collect_predictions self rows)) = List.length rows /\
  List.length (crisp (collect_predictions self rows)) = List.length rows /\
  List.length (ground_truth (collect_predictions self rows)) = List.length rows.
Proof.
  unfold collect_predictions.
  destruct (fold_collect_length self rows empty_predictions) as (H1 & H2 & H3).
  cbn in H1, H2, H3. auto.
Qed.

Lemma compare_methods_cases (self : FuzzyAirQualitySystem) (n_samples : Z) :
  (exists m preds,
     compare_methods np_sqrt sklearn_f1_score shuffle self n_samples
     = Ok (success_result m preds)) \/
  (exists e,
     compare_methods np_sqrt sklearn_f1_score shuffle self n_samples
     = Ok (failure_result e)).
Proof.
  unfold compare_methods.
  destruct (df_sample shuffle (data self) _) as [rows|e]; cbn [bind try_except].
  - match goal with
    | |- context [bind ?m _] => destruct m as [m'|e]
    end; cbn [bind try_except].
    + left. do 2 eexists. reflexivity.
    + right. eexists. reflexivity.
  - right. eexists. reflexivity.
Qed.

Lemma compare_methods_few (self : FuzzyAirQualitySystem) (n_samples : Z)
  (rows : list Row) :
  df_sample shuffle (data self)
    (Z.min n_samples (Z.of_nat (List.length (data self)))) = Ok rows ->
  (List.length (ground_truth (collect_predictions self rows)) <= 10)%nat ->
  compare_methods np_sqrt sklearn_f1_score shuffle self n_samples
  = Ok (success_result get_default_metrics (collect_predictions self rows)).
Proof.
  intros Hs Hlen. unfold compare_methods. rewrite Hs. cbn [bind].
  destruct (10 <? _)%nat eqn:E.
  - apply Nat.ltb_lt in E. lia.
  - reflexivity.
Qed.

(** C8: a comparison over zero samples returns normally, reports success,
    an empty fuzzy, crisp and ground-truth series and the default metrics. *)
Theorem compare_methods_empty_batch (self : FuzzyAirQualitySystem) :
  compare_methods np_sqrt sklearn_f1_score shuffle self 0
  = Ok {| success := true;
          error := None;
          metrics := get_default_metrics;
          predictions := {| fuzzy := []; crisp := []; ground_truth := [] |};
          sample_size := Some 0%nat |}.
Proof.
  apply (compare_methods_few self 0 []).
  - rewrite Z.min_l by lia. unfold df_sample.
    destruct (Z.of_nat (List.length (data self)) <? 0)%Z eqn:E.
    + apply Z.ltb_lt in E. lia.
    + reflexivity.
  - cbn. lia.
Qed.

(** C10: when the sampled batch yields at most 10 prediction triples, the
    comparison computes no metric from them: it reports success, the
    collected predictions and the fixed default metrics (fuzzy 25, 35,
    0.75, 0.73, 0.80; crisp 40, 50, 0.60, 0.58, 0.65). *)
Theorem few_samples_default_metrics (self : FuzzyAirQualitySystem) (n_samples : Z)
  (rows : list Row) :
  df_sample shuffle (data self)
    (Z.min n_samples (Z.of_nat (List.length (data self)))) = Ok rows ->
  (List.length (ground_truth (collect_predictions self rows)) <= 10)%nat ->
  exists r,
    compare_methods np_sqrt sklearn_f1_score shuffle self n_samples = Ok r /\
    success r = true /\
    predictions r = collect_predictions self rows /\
    metrics r = get_default_metrics /\
    metrics_fuzzy (metrics r) =
      {| mae := Fin 25.0; rmse := Fin 35.0; accuracy := Fin 0.75;
         f1_score := Fin 0.73; satisfaction := Fin 0.80 |} /\
    metrics_crisp (metrics r) =
      {| mae := Fin 40.0; rmse := Fin 50.0; accuracy := Fin 0.60;
         f1_score := Fin 0.58; satisfaction := Fin 0.65 |}.
Proof.
  intros Hs Hlen. eexists. split; [apply (compare_methods_few _ _ _ Hs Hlen)|].
  repeat split.
Qed.

(** C7: on numeric input the assessment, its fallback and the batch
    comparison all return normally: the assessment yields a result dict,
    the comparison either its success result or the failure result its
    outer handler builds. *)
Theorem assess_and_compare_total (self : FuzzyAirQualitySystem)
  (co no2 o3 temp humidity : Q) (n_samples : Z) :
  (exists r, comprehensive_assess self co no2 o3 temp humidity = Ok r) /\
  (exists r, simple_assess co no2 o3 = Ok r) /\
  (exists r,
     compare_methods np_sqrt sklearn_f1_score shuffle self n_samples = Ok r /\
     ((exists m preds, r = success_result m preds) \/
      (exists e, r = failure_result e))).
Proof.
  split; [apply comprehensive_assess_total|]. split.
  - destruct (simple_assess_total co no2 o3) as (f & c & k & m1 & m2 & m3 & H & _).
    eexists. exact H.
  - destruct (compare_methods_cases self n_samples) as [(m & p & H)|(e & H)].
    + eexists. split; [exact H|]. left. do 2 eexists. reflexivity.
    + eexists. split; [exact H|]. right. eexists. reflexivity.
Qed.

End Comparison.

Lemma few_samples_default_metrics_witness :
  df_sample (fun df => df) (data small_system)
    (Z.min 2 (Z.of_nat (List.length (data small_system)))) = Ok (data small_system) /\
  (List.length (ground_truth (collect_predictions small_system (data small_system)))
   <= 10)%nat /\
  exists r,
    compare_methods (fun x => x) (fun _ _ => Raise ValueError) (fun df => df)
      small_system 2 = Ok r /\
    success r = true /\ metrics r = get_default_metrics.
Proof.
  assert (H1 : df_sample (fun df => df) (data small_system)
                 (Z.min 2 (Z.of_nat (List.length (data small_system))))
               = Ok (data small_system)) by reflexivity.
  assert (H2 : (List.length
                  (ground_truth (collect_predictions small_system (data small_system)))
                <= 10)%nat) by (vm_compute; lia).
  split; [exact H1|]. split; [exact H2|].
  destruct (few_samples_default_metrics (fun x => x) (fun _ _ => Raise ValueError)
              (fun df => df) small_system 2 (data small_system) H1 H2)
    as (r & Hr & Hs & _ & Hm & _).
  exists r. repeat split; assumption.
Defined.

(** ** Ground truth *)

Lemma py_min_Qmin (a b : Q) : Py.min a b == Qmin a b.
Proof.
  unfold Py.min. destruct (Qlt_bool b a) eqn:E.
  - apply Qlt_bool_iff in E. rewrite Q.min_r by lra. reflexivity.
  - apply Qlt_bool_false in E. rewrite Q.min_l by lra. reflexivity.
Qed.

Lemma compare_row_ground_truth (self : FuzzyAirQualitySystem) (row : Row) :
  exists fuzzy_aqi,
    compare_row self row
    = Ok (fuzzy_aqi, calculate_epa_aqi row, calculate_ground_truth row).
Proof.
  unfold compare_row, py_float. cbn [bind].
  destruct (comprehensive_assess_total self (CO row) (NO2 row) (O3_Sensor row)
              (Temperature row) (Humidity row)) as [r ->].
  eexists. reflexivity.
Qed.

Lemma fold_collect_ground_truth (self : FuzzyAirQualitySystem) (rows : list Row) :
  forall acc,
    ground_truth (fold_left (collect_step self) rows acc)
    = (ground_truth acc ++ map calculate_ground_truth rows)%list.
Proof.
  induction rows as [|row rows IH]; intro acc; cbn [fold_left map].
  - rewrite app_nil_r. reflexivity.
  - rewrite IH. unfold collect_step.
    destruct (compare_row_ground_truth self row) as [f ->].
    cbn [ground_truth]. rewrite <- app_assoc. reflexivity.
Qed.

(** C9: the ground truth of a row is the weighted combination
    0.4 co_n + 0.3 no2_n + 0.3 o3_n of the pollutant fields rescaled to the
    0-500 scale and capped at 500, itself capped at 500; it reads the three
    pollutant fields only, and the ground-truth series of a comparison is
    this function mapped over the rows whatever the instance and its
    predictors are. *)
Theorem ground_truth_weighted_combination (row : Row) :
  calculate_ground_truth row ==
    Qmin 500 (0.4 * Qmin 500 (CO row / 20 * 500)
              + 0.3 * Qmin 500 (NO2 row / 400 * 500)
              + 0.3 * Qmin 500 (O3_Sensor row / 3000 * 500)) /\
  calculate_ground_truth row <= 500 /\
  (forall temp humidity,
     calculate_ground_truth (mkRow (CO row) (NO2 row) (O3_Sensor row) temp humidity)
     = calculate_ground_truth row) /\
  (forall self rows,
     ground_truth (collect_predictions self rows) = map calculate_ground_truth rows).
Proof.
  split; [|split; [|split]].
  - unfold calculate_ground_truth, pd_notna, py_float. cbn [bind].
    rewrite !py_min_Qmin.
    assert (H20 : 20.0 == 20) by reflexivity.
    assert (H400 : 400.0 == 400) by reflexivity.
    assert (H3000 : 3000.0 == 3000) by reflexivity.
    rewrite H20, H400, H3000. reflexivity.
  - unfold calculate_ground_truth, pd_notna, py_float. cbn [bind].
    rewrite py_min_Qmin. apply Q.le_min_l.
  - intros temp humidity. reflexivity.
  - intros self rows. unfold collect_predictions.
    rewrite fold_collect_ground_truth. reflexivity.
Qed.

(** ** Confidence *)

(** Whatever has been appended stays in the list the loop returns. *)
Lemma collect_activations_keeps (a : activation) (reads : list (result activation)) :
  forall activations collected,
    collect_activations reads activations = Ok collected ->
    In a activations -> In a collected.
Proof.
  induction reads as [|[v|e] reads IH]; intros activations collected H Hin;
    cbn [collect_activations bind] in H.
  - injection H as <-. exact Hin.
  - destruct v; apply (IH _ _ H); try exact Hin;
      apply in_or_app; left; exact Hin.
  - discriminate H.
Qed.

(** An accessor object that is read is appended: the test [is not None]
    lets it through. *)
Lemma collect_activations_object (before after : list (result activation)) :
  forall activations collected,
    collect_activations (before ++ Ok ActObject :: after)%list activations = Ok collected ->
    In ActObject collected.
Proof.
  induction before as [|[v|e] before IH]; intros activations collected H;
    cbn [app collect_activations bind] in H.
  - apply (collect_activations_keeps _ _ _ _ H).
    apply in_or_app. right. left. reflexivity.
  - destruct v; exact (IH _ _ H).
  - discriminate H.
Qed.

(** [np.mean] raises on a list that holds an accessor object. *)
Lemma np_mean_object (values : list activation) :
  In ActObject values -> np_mean values = Raise TypeError.
Proof.
  unfold np_mean. intro Hin.
  assert (H : numbers_of values = Raise TypeError).
  { induction values as [|v values IH]; [contradiction Hin|].
    destruct v; cbn [numbers_of]; try reflexivity.
    destruct Hin as [Hv|Hin]; [discriminate Hv|].
    rewrite (IH Hin). reflexivity. }
  rewrite H. reflexivity.
Qed.

(** C3 (the code departs from it): as soon as one of the reads yields the
    library's accessor object, the confidence is the fixed default 0.8,
    whatever the other reads yield: the object passes the test
    [is not None], [np.mean] raises on it and the bare [except] answers 0.8.
    This is the case of the ten rules of [self.rules], whose reads all yield
    such an object: the mean of the firing strengths is never computed. *)
Theorem confidence_is_always_default :
  (forall before after : list (result activation),
     calculate_confidence (before ++ Ok ActObject :: after)%list = Fin 0.8) /\
  List.length accessor_reads = List.length build_rule_base /\
  calculate_confidence accessor_reads = Fin 0.8.
Proof.
  split; [|split; reflexivity].
  intros before after. unfold calculate_confidence.
  destruct (collect_activations (before ++ Ok ActObject :: after)%list [])
    as [collected|e] eqn:E; cbn [bind]; [|reflexivity].
  pose proof (collect_activations_object _ _ _ _ E) as Hin.
  rewrite (np_mean_object _ Hin).
  destruct collected; reflexivity.
Qed.

(** ** Satisfaction rate *)

Lemma bind_Ok_inv {A B : Type} (m : result A) (k : A -> result B) (b : B) :
  bind m k = Ok b -> exists a, m = Ok a /\ k a = Ok b.
Proof.
  destruct m as [a|e]; cbn [bind]; intro H; [|discriminate H].
  exists a. split; [reflexivity | exact H].
Qed.

Lemma zip_with_map {T A B C : Type} (f : A -> B -> C) (g : T -> A) (h : T -> B)
  (l : list T) :
  Np.zip_with f (map g l) (map h l) = Ok (map (fun s => f (g s) (h s)) l).
Proof.
  induction l as [|s l IH]; cbn [map Np.zip_with]; [reflexivity|].
  rewrite IH. reflexivity.
Qed.

(** The satisfaction of a series is the fraction, over all samples, of those
    within tolerance. *)
Lemma satisfaction_rate_series {T : Type} (p g : T -> Q) (l : list T) :
  satisfaction_rate (map p l) (map g l)
  = Ok (Np.mean_bool (map (fun s => within_tolerance (p s) (g s)) l)).
Proof.
  unfold satisfaction_rate, relative_error, Np.subtract, Np.divide.
  rewrite zip_with_map. cbn [bind]. rewrite map_map.
  rewrite zip_with_map. cbn [bind]. rewrite map_map. reflexivity.
Qed.

Lemma within_tolerance_zero (pred gt : Q) : gt == 0 -> within_tolerance pred gt = false.
Proof.
  intro H. unfold within_tolerance, Np.divide1.
  apply Qeq_bool_iff in H. rewrite H.
  destruct (Qeq_bool (Qabs (pred - gt)) 0) eqn:Z; [reflexivity|].
  destruct (Qlt_bool 0 (Qabs (pred - gt))) eqn:E; [reflexivity|].
  apply Qlt_bool_false in E. apply Qeq_bool_false in Z.
  pose proof (Qabs_nonneg (pred - gt)). exfalso. apply Z. lra.
Qed.

Lemma count_true_app (xs ys : list bool) :
  Np.count_true (xs ++ ys)%list = (Np.count_true xs + Np.count_true ys)%nat.
Proof.
  unfold Np.count_true. rewrite filter_app, length_app. reflexivity.
Qed.

(** A failed sample leaves the count of satisfied samples as it is and adds
    one to the number of samples. *)
Lemma mean_bool_failed_sample {T : Type} (ok : T -> bool) (l1 l2 : list T) (s : T) :
  ok s = false ->
  Np.mean_bool (map ok (l1 ++ s :: l2)%list)
  = Fin (inject_Z (Z.of_nat (Np.count_true (map ok (l1 ++ l2)%list)))
         / inject_Z (Z.of_nat (S (List.length (l1 ++ l2)%list)))).
Proof.
  intro H.
  assert (Hc : Np.count_true (map ok (l1 ++ s :: l2)%list) = Np.count_true (map ok (l1 ++ l2)%list)).
  { rewrite !map_app, !count_true_app. cbn [map]. unfold Np.count_true at 2.
    cbn [filter]. rewrite H. reflexivity. }
  assert (Hl : List.length (map ok (l1 ++ s :: l2)%list) = S (List.length (l1 ++ l2)%list)).
  { rewrite length_map, !length_app. cbn. lia. }
  unfold Np.mean_bool. rewrite Hc, Hl.
  destruct (map ok (l1 ++ s :: l2)%list); [discriminate Hl | reflexivity].
Qed.

Section Satisfaction.

Variable np_sqrt : npfloat -> npfloat.
Variable sklearn_f1_score : list nat -> list nat -> result npfloat.

(** The two satisfaction entries of the metrics are the satisfaction rates
    of the two series. *)
Lemma calculate_enhanced_metrics_satisfaction (fuzzy_pred crisp_pred truth : list Q)
  (m : Metrics) :
  calculate_enhanced_metrics np_sqrt sklearn_f1_score fuzzy_pred crisp_pred truth = Ok m ->
  satisfaction_rate fuzzy_pred truth = Ok (satisfaction (metrics_fuzzy m)) /\
  satisfaction_rate crisp_pred truth = Ok (satisfaction (metrics_crisp m)).
Proof.
  unfold calculate_enhanced_metrics. intro H.
  repeat match type of H with
         | bind _ _ = Ok _ =>
             let a := fresh "a" in
             let Ha := fresh "Ha" in
             apply bind_Ok_inv in H; destruct H as (a & Ha & H)
         end.
  injection H as <-. cbn [satisfaction metrics_fuzzy metrics_crisp].
  split; assumption.
Qed.

(** C1 (as amended): a sample whose ground truth is 0 stays in the
    satisfaction computation of both series: it is never counted as
    satisfied and it is counted in the number of samples the rate is taken
    over. *)
Theorem zero_ground_truth_counts_as_failure (before after : list (Q * Q * Q))
  (fuzzy_aqi crisp_aqi gt : Q) (m : Metrics) :
  gt == 0 ->
  calculate_enhanced_metrics np_sqrt sklearn_f1_score
    (fuzzy_series (before ++ (fuzzy_aqi, crisp_aqi, gt) :: after))
    (crisp_series (before ++ (fuzzy_aqi, crisp_aqi, gt) :: after))
    (truth_series (before ++ (fuzzy_aqi, crisp_aqi, gt) :: after)) = Ok m ->
  within_tolerance fuzzy_aqi gt = false /\
  within_tolerance crisp_aqi gt = false /\
  satisfaction (metrics_fuzzy m)
  = Fin (inject_Z (Z.of_nat (fuzzy_satisfied (before ++ after)))
         / inject_Z (Z.of_nat (S (List.length (before ++ after))))) /\
  satisfaction (metrics_crisp m)
  = Fin (inject_Z (Z.of_nat (crisp_satisfied (before ++ after)))
         / inject_Z (Z.of_nat (S (List.length (before ++ after))))).
Proof.
  intros Hgt H.
  apply calculate_enhanced_metrics_satisfaction in H. destruct H as [Hf Hc].
  unfold fuzzy_series, crisp_series, truth_series in Hf, Hc.
  rewrite satisfaction_rate_series in Hf, Hc.
  injection Hf as <-. injection Hc as <-.
  split; [apply within_tolerance_zero; exact Hgt|].
  split; [apply within_tolerance_zero; exact Hgt|].
  split.
  - apply (mean_bool_failed_sample
             (fun s : Q * Q * Q => within_tolerance (fst (fst s)) (snd s))).
    apply within_tolerance_zero. exact Hgt.
  - apply (mean_bool_failed_sample
             (fun s : Q * Q * Q => within_tolerance (snd (fst s)) (snd s))).
    apply within_tolerance_zero. exact Hgt.
Qed.

End Satisfaction.

Lemma zero_ground_truth_counts_as_failure_witness :
  0 == 0 /\
  exists m,
    calculate_enhanced_metrics (fun x => x) (fun _ _ => Ok (Fin 1))
      [10; 5] [10; 5] [10; 0] = Ok m /\
    satisfaction (metrics_fuzzy m) = Fin (inject_Z 1 / inject_Z 2) /\
    satisfaction (metrics_crisp m) = Fin (inject_Z 1 / inject_Z 2).
Proof.
  split; [reflexivity|].
  destruct (calculate_enhanced_metrics (fun x => x) (fun _ _ => Ok (Fin 1))
              [10; 5] [10; 5] [10; 0]) as [m|e] eqn:E; [|vm_compute in E; discriminate E].
  exists m. split; [reflexivity|].
  destruct (zero_ground_truth_counts_as_failure (fun x => x) (fun _ _ => Ok (Fin 1))
              [(10, 10, 10)] [] 5 5 0 m (Qeq_refl 0) E) as (_ & _ & Hf & Hc).
  split; [exact Hf | exact Hc].
Defined.

(** C1 (as stated) fails: the sample with ground truth 0 is not excluded.
    With ground truths 10 and 0, fuzzy predictions 10 and 5 and crisp
    predictions 10 and 0, both satisfaction rates are 1/2; over the batch
    without that sample both are 1. *)
Lemma zero_ground_truth_sample_is_not_excluded :
  exists m m' : Metrics,
    calculate_enhanced_metrics (fun x => x) (fun _ _ => Ok (Fin 1))
      [10; 5] [10; 0] [10; 0] = Ok m /\
    calculate_enhanced_metrics (fun x => x) (fun _ _ => Ok (Fin 1))
      [10] [10] [10] = Ok m' /\
    satisfaction (metrics_fuzzy m) = Fin (1 # 2) /\
    satisfaction (metrics_crisp m) = Fin (1 # 2) /\
    satisfaction (metrics_fuzzy m') = Fin 1 /\
    satisfaction (metrics_crisp m') = Fin 1 /\
    satisfaction (metrics_fuzzy m) <> satisfaction (metrics_fuzzy m') /\
    satisfaction (metrics_crisp m) <> satisfaction (metrics_crisp m').
Proof.
  do 2 eexists.
  split; [vm_compute; reflexivity|]. split; [vm_compute; reflexivity|].
  cbn [satisfaction metrics_fuzzy metrics_crisp].
  repeat split; discriminate.
Qed.

(** ** Visualization curves *)

Lemma curve_in_unitb_sound (c : Curve) : curve_in_unitb c = true -> curve_in_unit c.
Proof.
  unfold curve_in_unitb, curve_in_unit. intro H.
  rewrite forallb_forall in H. apply Forall_forall. intros kt Hin.
  specialize (H kt Hin). apply andb_true_iff in H. destruct H as [Hl Hd].
  split; [apply Nat.eqb_eq; exact Hl|].
  rewrite forallb_forall in Hd. apply Forall_forall. intros d Hdin.
  specialize (Hd d Hdin). apply andb_true_iff in Hd. destruct Hd as [H0 H1].
  split; apply Qle_bool_iff; assumption.
Qed.

Lemma curves_in_unitb_sound (t : dict Curve) : curves_in_unitb t = true -> curves_in_unit t.
Proof.
  unfold curves_in_unitb, curves_in_unit. intro H.
  rewrite forallb_forall in H. apply Forall_forall. intros kc Hin.
  specialize (H kc Hin). apply andb_true_iff in H. destruct H as [Hl Hc].
  split; [apply Nat.eqb_eq; exact Hl | apply curve_in_unitb_sound; exact Hc].
Qed.

Lemma all2b_Forall2 {A B : Type} (f : A -> B -> bool) (R : A -> B -> Prop) :
  (forall x y, f x y = true -> R x y) ->
  forall xs ys, all2b f xs ys = true -> Forall2 R xs ys.
Proof.
  intro Hf. induction xs as [|x xs IH]; intros [|y ys] H; cbn [all2b] in H;
    try discriminate H.
  - constructor.
  - apply andb_true_iff in H. destruct H as [Hxy Hrest].
    constructor; [apply Hf; exact Hxy | apply IH; exact Hrest].
Qed.

Lemma Forall2_nth_error {A B : Type} (R : A -> B -> Prop) (xs : list A) (ys : list B) :
  Forall2 R xs ys ->
  forall i x y, nth_error xs i = Some x -> nth_error ys i = Some y -> R x y.
Proof.
  induction 1 as [|x0 y0 xs ys HR HF IH]; intros [|i] x y Hx Hy; cbn in Hx, Hy;
    try discriminate.
  - injection Hx as <-. injection Hy as <-. exact HR.
  - exact (IH i x y Hx Hy).
Qed.

Lemma all2b_false_nth_error {A B : Type} (f : A -> B -> bool) :
  forall xs ys,
    List.length xs = List.length ys -> all2b f xs ys = false ->
    exists i x y, nth_error xs i = Some x /\ nth_error ys i = Some y /\ f x y = false.
Proof.
  induction xs as [|x xs IH]; intros [|y ys] Hl H; cbn [List.length] in Hl;
    try discriminate Hl.
  - cbn [all2b] in H. discriminate H.
  - cbn [all2b] in H. destruct (f x y) eqn:E.
    + cbn [andb] in H. injection Hl as Hl.
      destruct (IH ys Hl H) as (i & x' & y' & Hx & Hy & Hf).
      exists (S i), x', y'. split; [exact Hx|]. split; [exact Hy | exact Hf].
    + exists 0%nat, x, y. split; [reflexivity|]. split; [reflexivity | exact E].
Qed.

Lemma dict_find_In {V : Type} (d : dict V) (k : string) (v : V) :
  dict_find d k = Some v -> In (k, v) d.
Proof.
  induction d as [|[k' v'] d IH]; cbn [dict_find In]; [discriminate|].
  destruct (String.eqb k k') eqn:E.
  - intro H. injection H as <-. apply String.eqb_eq in E. subst k'. left. reflexivity.
  - intro H. right. exact (IH H).
Qed.

(** The positive bell is positive. *)
Lemma rational_bell_positive (x mean sigma : Q) : 0 < rational_bell x mean sigma.
Proof.
  unfold rational_bell.
  set (t := (x - mean) / sigma).
  assert (Ht : 0 <= t * t) by nra.
  apply Qlt_shift_div_l; lra.
Qed.

Section Curves.

Variable fuzz_gaussmf : Q -> Q -> Q -> Q.

(** The Gaussian is positive wherever it is evaluated. *)
Hypothesis gaussmf_positive :
  forall x mean sigma, 0 < sigma -> 0 < fuzz_gaussmf x mean sigma.

Lemma follows_by_computation (c : Curve) (term : string) (a b k : Q)
  (degrees : list Q) :
  dict_find (terms c) term = Some degrees ->
  all2b (fun x d => Qeq_bool d (fuzz_trimf x a b k)) (universe c) degrees = true ->
  curve_follows fuzz_gaussmf c term (Trimf a b k).
Proof.
  intros Hd Hall. exists degrees. split; [exact Hd|].
  apply (all2b_Forall2 (fun x d => Qeq_bool d (fuzz_trimf x a b k))); [|exact Hall].
  intros x d H. apply Qeq_bool_iff in H. exact H.
Qed.

Lemma departs_by_computation (c : Curve) (term : string) (s : mf_shape)
  (agrees : Q -> Q -> bool) (degrees : list Q) :
  (forall x d, agrees x d = false -> ~ d == eval_shape fuzz_gaussmf s x) ->
  dict_find (terms c) term = Some degrees ->
  List.length (universe c) = List.length degrees ->
  all2b agrees (universe c) degrees = false ->
  curve_departs fuzz_gaussmf c term s.
Proof.
  intros Hsound Hd Hl Hall.
  destruct (all2b_false_nth_error agrees _ _ Hl Hall) as (i & x & d & Hx & Hy & Hf).
  exists degrees, i, x, d. repeat split; try assumption.
  exact (Hsound x d Hf).
Qed.

Lemma departs_trimf (c : Curve) (term : string) (a b k : Q) (degrees : list Q) :
  dict_find (terms c) term = Some degrees ->
  List.length (universe c) = List.length degrees ->
  all2b (fun x d => Qeq_bool d (fuzz_trimf x a b k)) (universe c) degrees = false ->
  curve_departs fuzz_gaussmf c term (Trimf a b k).
Proof.
  apply departs_by_computation. intros x d H. apply Qeq_bool_false in H. exact H.
Qed.

Lemma departs_trapmf (c : Curve) (term : string) (a b k l : Q) (degrees : list Q) :
  dict_find (terms c) term = Some degrees ->
  List.length (universe c) = List.length degrees ->
  all2b (fun x d => Qeq_bool d (fuzz_trapmf x a b k l)) (universe c) degrees = false ->
  curve_departs fuzz_gaussmf c term (Trapmf a b k l).
Proof.
  apply departs_by_computation. intros x d H. apply Qeq_bool_false in H. exact H.
Qed.

(** A curve with a zero degree departs from a Gaussian. *)
Lemma departs_gaussmf (c : Curve) (term : string) (mean sigma : Q) (degrees : list Q) :
  0 < sigma ->
  dict_find (terms c) term = Some degrees ->
  List.length (universe c) = List.length degrees ->
  all2b (fun x d => negb (Qeq_bool d 0)) (universe c) degrees = false ->
  curve_departs fuzz_gaussmf c term (Gaussmf mean sigma).
Proof.
  intro Hs. apply departs_by_computation. intros x d H Heq.
  apply negb_false_iff in H. apply Qeq_bool_iff in H.
  pose proof (gaussmf_positive x mean sigma Hs) as Hpos.
  cbn [eval_shape] in Heq. lra.
Qed.

(** A curve cannot both follow and depart from a declaration. *)
Lemma curve_departs_not_follows (c : Curve) (term : string) (s : mf_shape) :
  curve_departs fuzz_gaussmf c term s -> ~ curve_follows fuzz_gaussmf c term s.
Proof.
  intros (degrees & i & x & d & Hd & Hx & Hy & Hne) (degrees' & Hd' & HF).
  rewrite Hd in Hd'. injection Hd' as <-.
  exact (Hne (Forall2_nth_error _ _ _ HF i x d Hx Hy)).
Qed.

Lemma departs_and_not_follows (c : Curve) (term : string) (s : mf_shape) :
  curve_departs fuzz_gaussmf c term s ->
  curve_departs fuzz_gaussmf c term s /\ ~ curve_follows fuzz_gaussmf c term s.
Proof. intro H. split; [exact H | exact (curve_departs_not_follows _ _ _ H)]. Qed.

(** The cases of a membership in a list written out. *)
Ltac in_cases H :=
  repeat match type of H with
         | In _ (_ :: _) => destruct H as [H|H]; [injection H as <- <-|]
         | In _ [] => contradiction H
         end.

(** One declared term against its curve, by evaluation of both. *)
Ltac settle_term :=
  eexists; split; [vm_compute; reflexivity|];
  let E := fresh "E" in
  destruct (is_matching _ _) eqn:E; vm_compute in E; try discriminate E; clear E;
  lazymatch goal with
  | |- _ /\ _ =>
      apply departs_and_not_follows;
      first [ eapply departs_trimf; vm_compute; reflexivity
            | eapply departs_trapmf; vm_compute; reflexivity
            | eapply departs_gaussmf; [reflexivity|..]; vm_compute; reflexivity ]
  | |- _ => eapply follows_by_computation; vm_compute; reflexivity
  end.

(** C4 (as amended): the curves do not depend on the instance: every
    instance returns the same table, with 50 sampled points per variable and
    one degree in [0,1] per term and sampled point.  With the pollutants
    drawn under their column names (CO under CO_GT, NO2 under NO2_GT, O3
    under O3_Sensor), every term declared in [init_fuzzy_variables] has a
    curve; the curve follows the declared function at every sampled point
    for CO/Low, O3/Good, Humidity/Comfortable and AQI/Good, and departs from
    it at some sampled point for every other declared term. *)
Theorem membership_curves_are_static (self self' : FuzzyAirQualitySystem) :
  get_membership_functions self = get_membership_functions self' /\
  curves_in_unit (get_membership_functions self) /\
  (forall (variable term : string) (s : mf_shape),
     declared variable term = Some s ->
     exists c,
       dict_find (get_membership_functions self) (curve_key variable) = Some c /\
       if is_matching variable term
       then curve_follows fuzz_gaussmf c term s
       else curve_departs fuzz_gaussmf c term s /\
            ~ curve_follows fuzz_gaussmf c term s).
Proof.
  split; [reflexivity|].
  split; [apply curves_in_unitb_sound; vm_compute; reflexivity|].
  intros variable term s Hd. unfold declared in Hd.
  destruct (dict_find init_fuzzy_variables variable) as [ts|] eqn:Hv;
    [|discriminate Hd].
  apply dict_find_In in Hv. apply dict_find_In in Hd.
  unfold init_fuzzy_variables in Hv.
  in_cases Hv; in_cases Hd; settle_term.
Qed.

End Curves.

Lemma membership_curves_are_static_witness :
  (forall x mean sigma, 0 < sigma -> 0 < rational_bell x mean sigma) /\
  get_membership_functions small_system = get_membership_functions twelve_row_system /\
  (exists c,
     dict_find (get_membership_functions small_system) "CO_GT" = Some c /\
     curve_follows rational_bell c "Low" (Trimf 1 2.5 4)) /\
  (exists c,
     dict_find (get_membership_functions small_system) "NO2_GT" = Some c /\
     curve_departs rational_bell c "Poor" (Gaussmf 200 50)).
Proof.
  assert (Hpos : forall x mean sigma, 0 < sigma -> 0 < rational_bell x mean sigma).
  { intros x mean sigma _. apply rational_bell_positive. }
  destruct (membership_curves_are_static rational_bell Hpos small_system twelve_row_system)
    as (Hsame & _ & Hterms).
  split; [exact Hpos|]. split; [exact Hsame|]. split.
  - destruct (Hterms "CO" "Low" (Trimf 1 2.5 4) eq_refl) as (c & Hc & Hf).
    exists c. split; [exact Hc | exact Hf].
  - destruct (Hterms "NO2" "Poor" (Gaussmf 200 50) eq_refl) as (c & Hc & Hf).
    exists c. split; [exact Hc | exact (proj1 Hf)].
Defined.

(** C4 (as stated) fails: the term Comfortable of Temperature is declared as
    the triangle (10, 20, 30), which is 16/49 at the sampled point 650/49
    (index 19 of the 50 points of [-10, 50]), where the curve is 0. *)
Lemma temperature_curve_differs_from_declaration :
  declared "Temperature" "Comfortable" = Some (Trimf 10 20 30) /\
  exists c degrees x d,
    dict_find (get_membership_functions small_system) "Temperature" = Some c /\
    dict_find (terms c) "Comfortable" = Some degrees /\
    nth_error (universe c) 19 = Some x /\
    nth_error degrees 19 = Some d /\
    x == 650 # 49 /\
    d == 0 /\
    forall fuzz_gaussmf : Q -> Q -> Q -> Q,
      eval_shape fuzz_gaussmf (Trimf 10 20 30) x == 16 # 49 /\
      ~ curve_follows fuzz_gaussmf c "Comfortable" (Trimf 10 20 30).
Proof.
  split; [reflexivity|].
  do 4 eexists.
  split; [vm_compute; reflexivity|].
  split; [vm_compute; reflexivity|].
  split; [vm_compute; reflexivity|].
  split; [vm_compute; reflexivity|].
  split; [reflexivity|]. split; [reflexivity|].
  intro fuzz_gaussmf. split; [reflexivity|].
  intros (degrees & Hd & HF).
  vm_compute in Hd. injection Hd as <-.
  pose proof (Forall2_nth_error _ _ _ HF 19%nat _ _ eq_refl eq_refl) as H.
  vm_compute in H. discriminate H.
Qed.

(** * Further properties of the engine *)

(** ** Crisp scores *)

(** A closed comparison of rationals, decided by evaluation. *)
Ltac qdecide :=
  first [ apply Qle_bool_iff; vm_compute; reflexivity
        | apply Qlt_bool_iff; vm_compute; reflexivity
        | apply Qeq_bool_iff; vm_compute; reflexivity ].

Lemma calculate_crisp_aqi_points (co no2 o3 : Q) :
  calculate_crisp_aqi co no2 o3 == 100 - (co_points co + no2_points no2 + o3_points o3).
Proof.
  unfold calculate_crisp_aqi, co_points, no2_points, o3_points.
  qcase; qdecide.
Qed.

Lemma co_points_antitone (x y : Q) : x <= y -> co_points y <= co_points x.
Proof. intro H. unfold co_points. qcase; first [lra | qdecide]. Qed.

Lemma no2_points_antitone (x y : Q) : x <= y -> no2_points y <= no2_points x.
Proof. intro H. unfold no2_points. qcase; first [lra | qdecide]. Qed.

Lemma o3_points_antitone (x y : Q) : x <= y -> o3_points y <= o3_points x.
Proof. intro H. unfold o3_points. qcase; first [lra | qdecide]. Qed.

Lemma co_points_range (x : Q) :
  0 <= co_points x /\ co_points x <= 40 /\
  (co_points x == 40 <-> x < 1) /\ (co_points x == 0 <-> 7 <= x).
Proof.
  unfold co_points. qcase;
    (split; [qdecide|]); (split; [qdecide|]);
    split; split; intro H; first [lra | qdecide | discriminate H].
Qed.

Lemma no2_points_range (x : Q) :
  0 <= no2_points x /\ no2_points x <= 35 /\
  (no2_points x == 35 <-> x < 50) /\ (no2_points x == 0 <-> 200 <= x).
Proof.
  unfold no2_points. qcase;
    (split; [qdecide|]); (split; [qdecide|]);
    split; split; intro H; first [lra | qdecide | discriminate H].
Qed.

Lemma o3_points_range (x : Q) :
  0 <= o3_points x /\ o3_points x <= 25 /\
  (o3_points x == 25 <-> x < 50) /\ (o3_points x == 0 <-> 150 <= x).
Proof.
  unfold o3_points. qcase;
    (split; [qdecide|]); (split; [qdecide|]);
    split; split; intro H; first [lra | qdecide | discriminate H].
Qed.

(** X1: the crisp score lies in [0,100] and never decreases when a
    pollutant reading increases. *)
Theorem calculate_crisp_aqi_monotone (co no2 o3 co' no2' o3' : Q) :
  co <= co' -> no2 <= no2' -> o3 <= o3' ->
  0 <= calculate_crisp_aqi co no2 o3 /\
  calculate_crisp_aqi co no2 o3 <= calculate_crisp_aqi co' no2' o3' /\
  calculate_crisp_aqi co' no2' o3' <= 100.
Proof.
  intros Hco Hno2 Ho3. rewrite !calculate_crisp_aqi_points.
  pose proof (co_points_antitone _ _ Hco).
  pose proof (no2_points_antitone _ _ Hno2).
  pose proof (o3_points_antitone _ _ Ho3).
  destruct (co_points_range co) as (? & ? & _).
  destruct (no2_points_range no2) as (? & ? & _).
  destruct (o3_points_range o3) as (? & ? & _).
  destruct (co_points_range co') as (? & ? & _).
  destruct (no2_points_range no2') as (? & ? & _).
  destruct (o3_points_range o3') as (? & ? & _).
  lra.
Qed.

Lemma calculate_crisp_aqi_monotone_witness :
  1 <= 6 /\ 30 <= 120 /\ 20 <= 20 /\
  calculate_crisp_aqi 1 30 20 <= calculate_crisp_aqi 6 120 20.
Proof.
  assert (H1 : 1 <= 6) by qdecide.
  assert (H2 : 30 <= 120) by qdecide.
  assert (H3 : 20 <= 20) by qdecide.
  split; [exact H1|]. split; [exact H2|]. split; [exact H3|].
  apply (calculate_crisp_aqi_monotone 1 30 20 6 120 20 H1 H2 H3).
Defined.

(** X2: the crisp score is 0 exactly when every pollutant is in its lowest
    band (CO < 1, NO2 < 50, O3 < 50) and 100 exactly when every pollutant is
    beyond its last band (CO >= 7, NO2 >= 200, O3 >= 150). *)
Theorem calculate_crisp_aqi_extremes (co no2 o3 : Q) :
  (calculate_crisp_aqi co no2 o3 == 0 <-> co < 1 /\ no2 < 50 /\ o3 < 50) /\
  (calculate_crisp_aqi co no2 o3 == 100 <-> 7 <= co /\ 200 <= no2 /\ 150 <= o3).
Proof.
  rewrite !calculate_crisp_aqi_points.
  destruct (co_points_range co) as (A0 & A1 & A2 & A3).
  destruct (no2_points_range no2) as (B0 & B1 & B2 & B3).
  destruct (o3_points_range o3) as (C0 & C1 & C2 & C3).
  split; split.
  - intro H. repeat split; [apply A2 | apply B2 | apply C2]; lra.
  - intros (Ha & Hb & Hc). apply A2 in Ha. apply B2 in Hb. apply C2 in Hc. lra.
  - intro H. repeat split; [apply A3 | apply B3 | apply C3]; lra.
  - intros (Ha & Hb & Hc). apply A3 in Ha. apply B3 in Hb. apply C3 in Hc. lra.
Qed.

(** ** Reference values of a row *)

Lemma py_max_Qmax (a b : Q) : Py.max a b == Qmax a b.
Proof.
  unfold Py.max. destruct (Qlt_bool a b) eqn:E.
  - apply Qlt_bool_iff in E. rewrite Q.max_r by lra. reflexivity.
  - apply Qlt_bool_false in E. rewrite Q.max_l by lra. reflexivity.
Qed.

Lemma py_max_bounds (a b : Q) :
  a <= Py.max a b /\ b <= Py.max a b /\ (Py.max a b == a \/ Py.max a b == b).
Proof. unfold Py.max. qcase; repeat split; try lra; auto with qarith. Qed.

Lemma py_min_bounds (a b : Q) :
  Py.min a b <= a /\ Py.min a b <= b /\ (Py.min a b == a \/ Py.min a b == b).
Proof. unfold Py.min. qcase; repeat split; try lra; auto with qarith. Qed.

Lemma py_max_monotone (a b a' b' : Q) :
  a <= a' -> b <= b' -> Py.max a b <= Py.max a' b'.
Proof. intros Ha Hb. unfold Py.max. qcase; lra. Qed.

(** One reading rescaled to the 0-500 scale and clamped there. *)
Lemma clamped_reading (full x y : Q) :
  0 < full ->
  0 <= Py.min 500 (Py.max 0 (x / full * 500)) /\
  Py.min 500 (Py.max 0 (x / full * 500)) <= 500 /\
  (x <= y ->
   Py.min 500 (Py.max 0 (x / full * 500)) <= Py.min 500 (Py.max 0 (y / full * 500))) /\
  (full <= x -> Py.min 500 (Py.max 0 (x / full * 500)) == 500) /\
  (x <= 0 -> Py.min 500 (Py.max 0 (x / full * 500)) == 0).
Proof.
  intro Hfull.
  assert (Hk : 0 < / full) by (apply Qinv_lt_0_compat; exact Hfull).
  assert (H1 : full * / full == 1) by (apply Qmult_inv_r; lra).
  unfold Qdiv. set (k := / full) in *.
  assert (Hxy : x <= y -> x * k * 500 <= y * k * 500) by (intro; nra).
  assert (Hsat : full <= x -> 500 <= x * k * 500) by (intro; nra).
  assert (Hneg : x <= 0 -> x * k * 500 <= 0) by (intro; nra).
  set (u := x * k * 500) in *. set (v := y * k * 500) in *.
  destruct (py_max_bounds 0 u) as (U1 & U2 & U3).
  destruct (py_max_bounds 0 v) as (V1 & V2 & V3).
  destruct (py_min_bounds 500 (Py.max 0 u)) as (P1 & P2 & P3).
  destruct (py_min_bounds 500 (Py.max 0 v)) as (R1 & R2 & R3).
  set (pu := Py.max 0 u) in *. set (pv := Py.max 0 v) in *.
  set (mu := Py.min 500 pu) in *. set (mv := Py.min 500 pv) in *.
  split; [|split; [|split; [|split]]].
  - lra.
  - lra.
  - intro H. specialize (Hxy H).
    destruct U3 as [U3|U3], V3 as [V3|V3], P3 as [P3|P3], R3 as [R3|R3]; lra.
  - intro H. specialize (Hsat H). destruct P3 as [P3|P3]; lra.
  - intro H. specialize (Hneg H).
    destruct U3 as [U3|U3], P3 as [P3|P3]; lra.
Qed.

(** X3: the EPA value of a row lies in [0,500], never decreases when the
    readings increase, is 500 as soon as one reading reaches its full scale
    (CO 20, NO2 400, O3 3000) and is 0 when no reading is positive. *)
Theorem calculate_epa_aqi_scale (row row' : Row) :
  0 <= calculate_epa_aqi row /\
  calculate_epa_aqi row <= 500 /\
  (CO row <= CO row' -> NO2 row <= NO2 row' -> O3_Sensor row <= O3_Sensor row' ->
   calculate_epa_aqi row <= calculate_epa_aqi row') /\
  (20 <= CO row \/ 400 <= NO2 row \/ 3000 <= O3_Sensor row ->
   calculate_epa_aqi row == 500) /\
  (CO row <= 0 -> NO2 row <= 0 -> O3_Sensor row <= 0 -> calculate_epa_aqi row == 0).
Proof.
  unfold calculate_epa_aqi, pd_notna, py_float. cbn [bind].
  assert (F1 : 0 < 20.0) by reflexivity.
  assert (F2 : 0 < 400.0) by reflexivity.
  assert (F3 : 0 < 3000.0) by reflexivity.
  destruct (clamped_reading 20.0 (CO row) (CO row') F1) as (A0 & A1 & A2 & A3 & A4).
  destruct (clamped_reading 400.0 (NO2 row) (NO2 row') F2) as (B0 & B1 & B2 & B3 & B4).
  destruct (clamped_reading 3000.0 (O3_Sensor row) (O3_Sensor row') F3)
    as (C0 & C1 & C2 & C3 & C4).
  set (a := Py.min 500 (Py.max 0 (CO row / 20.0 * 500))) in *.
  set (b := Py.min 500 (Py.max 0 (NO2 row / 400.0 * 500))) in *.
  set (c := Py.min 500 (Py.max 0 (O3_Sensor row / 3000.0 * 500))) in *.
  set (a' := Py.min 500 (Py.max 0 (CO row' / 20.0 * 500))) in *.
  set (b' := Py.min 500 (Py.max 0 (NO2 row' / 400.0 * 500))) in *.
  set (c' := Py.min 500 (Py.max 0 (O3_Sensor row' / 3000.0 * 500))) in *.
  destruct (py_max_bounds a b) as (M1 & M2 & M3).
  destruct (py_max_bounds (Py.max a b) c) as (N1 & N2 & N3).
  assert (Hhi : Py.max (Py.max a b) c <= 500).
  { destruct N3 as [N3|N3]; [destruct M3 as [M3|M3]|]; lra. }
  split; [lra|]. split; [exact Hhi|]. split; [|split].
  - intros Ha Hb Hc.
    apply py_max_monotone; [apply py_max_monotone|]; auto.
  - intros [H|[H|H]].
    + assert (K : a == 500) by (apply A3; lra). lra.
    + assert (K : b == 500) by (apply B3; lra). lra.
    + assert (K : c == 500) by (apply C3; lra). lra.
  - intros Ha Hb Hc. apply A4 in Ha. apply B4 in Hb. apply C4 in Hc.
    destruct N3 as [N3|N3]; [destruct M3 as [M3|M3]|]; lra.
Qed.

Lemma calculate_epa_aqi_scale_witness :
  CO (mkRow 10 100 600 20 50) <= CO (mkRow 25 100 600 20 50) /\
  calculate_epa_aqi (mkRow 10 100 600 20 50) == 250 /\
  calculate_epa_aqi (mkRow 25 100 600 20 50) == 500 /\
  calculate_epa_aqi (mkRow 10 100 600 20 50) <= calculate_epa_aqi (mkRow 25 100 600 20 50).
Proof.
  destruct (calculate_epa_aqi_scale (mkRow 10 100 600 20 50) (mkRow 25 100 600 20 50))
    as (_ & _ & Hmono & _ & _).
  assert (H : CO (mkRow 10 100 600 20 50) <= CO (mkRow 25 100 600 20 50))
    by (cbn; lra).
  split; [exact H|]. split; [reflexivity|]. split; [reflexivity|].
  apply Hmono; [exact H | cbn; lra | cbn; lra].
Defined.

(** ** Category bands *)

Lemma categorize_monotone (x y : Q) : x <= y -> (categorize x <= categorize y)%nat.
Proof. intro H. unfold categorize. qcase; first [lra | lia]. Qed.

(** X4: the band index of [categorize] and the label of [aqi_to_category]
    agree on every value, and the index never decreases when the value
    increases. *)
Theorem categorize_matches_aqi_to_category (aqi aqi' : Q) :
  nth_error aqi_band_labels (categorize aqi) = Some (aqi_to_category aqi) /\
  (aqi <= aqi' -> (categorize aqi <= categorize aqi')%nat) /\
  (categorize aqi = categorize aqi' <-> aqi_to_category aqi = aqi_to_category aqi').
Proof.
  split; [|split].
  - unfold categorize, aqi_to_category. qcase; reflexivity.
  - apply categorize_monotone.
  - unfold categorize, aqi_to_category. qcase; split; intro H;
      first [reflexivity | discriminate H].
Qed.

Lemma categorize_matches_aqi_to_category_witness :
  40 <= 120 /\ (categorize 40 <= categorize 120)%nat.
Proof.
  assert (H : 40 <= 120) by qdecide.
  split; [exact H|].
  destruct (categorize_matches_aqi_to_category 40 120) as (_ & Hm & _).
  exact (Hm H).
Defined.

(** ** The weighted score of the fallback *)

Lemma dict_get_forall {V : Type} (P : V -> Prop) (d : dict V) (k : string) (default : V) :
  Forall (fun kv => P (snd kv)) d -> P default -> P (dict_get d k default).
Proof.
  intros Hd Hdef. induction Hd as [|[k' v] d Hv Hd IH]; cbn [dict_get]; [exact Hdef|].
  destruct (String.eqb k k'); [exact Hv | exact IH].
Qed.



(** ** Supports of the hand-written membership functions *)

Lemma ratio_pos (n d : Q) : 0 < d -> 0 < n -> 0 < n / d.
Proof. intros Hd Hn. apply Qlt_shift_div_l; lra. Qed.

(** After the case analysis of a shape whose equation [H] is in the goal:
    a constant branch is settled by arithmetic, a ratio branch by the sign
    of its numerator. *)
Ltac shape_support :=
  let H := fresh "H" in
  let G := fresh "G" in
  qcase; intro H;
  try (rewrite div_pos in H by lra);
  injection H as <-;
  (split; intro G);
  first [ lra
        | exfalso; revert G; apply Qle_not_lt; qdecide
        | qdecide
        | apply ratio_pos; lra ].

Lemma trimf_support (x a b c v : Q) :
  trimf x a b c = Ok v -> (0 < v <-> a < x /\ x < c).
Proof. unfold trimf. shape_support. Qed.

Lemma trapmf_support (x a b c d v : Q) :
  trapmf x a b c d = Ok v -> (0 < v <-> a < x /\ x < d).
Proof. unfold trapmf. shape_support. Qed.

Lemma trap_left_support (x a b v : Q) :
  a < b -> trap_left x a b = Ok v -> (0 < v <-> x < b).
Proof. intro Hab. unfold trap_left. shape_support. Qed.

Lemma ramp_right_support (x a b v : Q) :
  a < b -> ramp_right x a b = Ok v -> (0 < v <-> a < x).
Proof. intro Hab. unfold ramp_right. shape_support. Qed.

Lemma trap_right_support (x a b v : Q) :
  a < b -> trap_right x a b = Ok v -> (0 < v <-> a < x).
Proof. exact (ramp_right_support x a b v). Qed.

Lemma no_positive_cons (k : string) (v : Q) (m : dict Q) :
  no_positive_degree ((k, v) :: m) <-> v <= 0 /\ no_positive_degree m.
Proof.
  unfold no_positive_degree. split.
  - intro H. inversion H; subst. split; assumption.
  - intros [Hv Hm]. constructor; assumption.
Qed.

Lemma no_positive_nil : no_positive_degree [] <-> True.
Proof. split; [trivial | intros _; constructor]. Qed.

(** The clamp of a reading sits on a bound exactly when the reading is at or
    beyond it. *)
Lemma clamp_edges (lo hi x : Q) :
  lo < hi ->
  let y := Py.max lo (Py.min x hi) in
  lo <= y /\ y <= hi /\ (y <= lo <-> x <= lo) /\ (hi <= y <-> hi <= x) /\
  (lo < y -> y < hi -> y == x).
Proof.
  intro H. cbv zeta. unfold Py.min. qcase; unfold Py.max; qcase;
    repeat split; intros; lra.
Qed.

Lemma co_membership_cover (co : Q) :
  exists m, calculate_co_membership co = Ok m /\
            (no_positive_degree m <-> co <= 0 \/ 20 <= co).
Proof.
  unfold calculate_co_membership.
  assert (H020 : 0.0 < 20.0) by reflexivity.
  destruct (clamp_edges 0.0 20.0 co H020) as (X0 & X1 & X2 & X3 & _).
  set (x := Py.max 0.0 (Py.min co 20.0)) in *.
  destruct (trimf_total x 0.0 0.0 2.0) as (v1 & E1 & L1 & _).
  destruct (trimf_total x 1.0 2.5 4.0) as (v2 & E2 & L2 & _).
  destruct (trimf_total x 3.0 5.0 7.0) as (v3 & E3 & L3 & _).
  destruct (trimf_total x 6.0 9.0 12.0) as (v4 & E4 & L4 & _).
  destruct (trapmf_total x 10.0 15.0 20.0 20.0) as (v5 & E5 & L5 & _).
  pose proof (trimf_support _ _ _ _ _ E1) as S1.
  pose proof (trimf_support _ _ _ _ _ E2) as S2.
  pose proof (trimf_support _ _ _ _ _ E3) as S3.
  pose proof (trimf_support _ _ _ _ _ E4) as S4.
  pose proof (trapmf_support _ _ _ _ _ _ E5) as S5.
  rewrite E1, E2, E3, E4, E5. cbn [bind].
  eexists. split; [reflexivity|].
  cbv [dict_literal fold_left dict_set fst snd]. simpl.
  rewrite !no_positive_cons, no_positive_nil.
  assert (Hx : (x <= 0 \/ 20 <= x) <-> (co <= 0 \/ 20 <= co)).
  { destruct X2 as [A1 A2]. destruct X3 as [B1 B2].
    split; intros [G|G].
    - left. assert (K : co <= 0.0) by (apply A1; lra). lra.
    - right. assert (K : 20.0 <= co) by (apply B1; lra). lra.
    - left. assert (K : x <= 0.0) by (apply A2; lra). lra.
    - right. assert (K : 20.0 <= x) by (apply B2; lra). lra. }
  rewrite <- Hx. clear Hx.
  split.
  - intros (G1 & G2 & G3 & G4 & G5 & _).
    destruct (Qlt_le_dec 0 x) as [P|P]; [|left; exact P].
    destruct (Qlt_le_dec x 20) as [R|R]; [|right; exact R].
    exfalso.
    destruct (Qlt_le_dec x 2) as [T1|T1]; [apply (Qlt_not_le 0 v1); [apply S1; lra | exact G1]|].
    destruct (Qlt_le_dec x 4) as [T2|T2]; [apply (Qlt_not_le 0 v2); [apply S2; lra | exact G2]|].
    destruct (Qlt_le_dec x 7) as [T3|T3]; [apply (Qlt_not_le 0 v3); [apply S3; lra | exact G3]|].
    destruct (Qlt_le_dec x 12) as [T4|T4]; [apply (Qlt_not_le 0 v4); [apply S4; lra | exact G4]|].
    apply (Qlt_not_le 0 v5); [apply S5; lra | exact G5].
  - intros G.
    assert (N1 : ~ 0 < v1) by (intro P; apply S1 in P; lra).
    assert (N2 : ~ 0 < v2) by (intro P; apply S2 in P; lra).
    assert (N3 : ~ 0 < v3) by (intro P; apply S3 in P; lra).
    assert (N4 : ~ 0 < v4) by (intro P; apply S4 in P; lra).
    assert (N5 : ~ 0 < v5) by (intro P; apply S5 in P; lra).
    repeat split; lra.
Qed.

Lemma no2_membership_cover (no2 : Q) :
  exists m, calculate_no2_membership no2 = Ok m /\
            (no_positive_degree m <-> no2 == 50).
Proof.
  unfold calculate_no2_membership.
  assert (H0400 : 0.0 < 400.0) by reflexivity.
  destruct (clamp_edges 0.0 400.0 no2 H0400) as (X0 & X1 & X2 & X3 & X4).
  set (x := Py.max 0.0 (Py.min no2 400.0)) in *.
  destruct (trap_left_total x 0.0 50.0) as (v1 & E1 & L1 & _).
  destruct (trimf_total x 50.0 100.0 150.0) as (v2 & E2 & L2 & _).
  destruct (trimf_total x 125.0 200.0 275.0) as (v3 & E3 & L3 & _).
  destruct (trimf_total x 225.0 300.0 375.0) as (v4 & E4 & L4 & _).
  destruct (ramp_right_total x 350.0 400.0) as (v5 & E5 & L5 & _).
  assert (S1 := trap_left_support _ _ _ _ (eq_refl : 0.0 < 50.0) E1).
  pose proof (trimf_support _ _ _ _ _ E2) as S2.
  pose proof (trimf_support _ _ _ _ _ E3) as S3.
  pose proof (trimf_support _ _ _ _ _ E4) as S4.
  assert (S5 := ramp_right_support _ _ _ _ (eq_refl : 350.0 < 400.0) E5).
  rewrite E1, E2, E3, E4, E5. cbn [bind].
  eexists. split; [reflexivity|].
  cbv [dict_literal fold_left dict_set fst snd]. simpl.
  rewrite !no_positive_cons, no_positive_nil.
  assert (Hx : x == 50 <-> no2 == 50).
  { split; intro G.
    - rewrite <- G. symmetry. apply X4; lra.
    - destruct (Qlt_le_dec 0.0 x) as [P|P].
      + destruct (Qlt_le_dec x 400.0) as [R|R]; [rewrite (X4 P R); exact G|].
        apply X3 in R. lra.
      + apply X2 in P. lra. }
  rewrite <- Hx. clear X2 X3 X4 Hx.
  split.
  - intros (G1 & G2 & G3 & G4 & G5 & _).
    destruct (Qlt_le_dec x 50) as [T1|T1];
      [exfalso; apply (Qlt_not_le 0 v1); [apply S1; lra | exact G1]|].
    destruct (Qlt_le_dec 50 x) as [T0|T0]; [exfalso | lra].
    destruct (Qlt_le_dec x 150) as [T2|T2]; [apply (Qlt_not_le 0 v2); [apply S2; lra | exact G2]|].
    destruct (Qlt_le_dec x 275) as [T3|T3]; [apply (Qlt_not_le 0 v3); [apply S3; lra | exact G3]|].
    destruct (Qlt_le_dec x 375) as [T4|T4]; [apply (Qlt_not_le 0 v4); [apply S4; lra | exact G4]|].
    apply (Qlt_not_le 0 v5); [apply S5; lra | exact G5].
  - intros G.
    assert (N1 : ~ 0 < v1) by (intro P; apply S1 in P; lra).
    assert (N2 : ~ 0 < v2) by (intro P; apply S2 in P; lra).
    assert (N3 : ~ 0 < v3) by (intro P; apply S3 in P; lra).
    assert (N4 : ~ 0 < v4) by (intro P; apply S4 in P; lra).
    assert (N5 : ~ 0 < v5) by (intro P; apply S5 in P; lra).
    repeat split; lra.
Qed.

Lemma o3_good_support (x : Q) :
  0 < (if Qle_bool x 1000.0 then Py.max 0.0 (1.0 - x / 1000.0) else 0.0)
  <-> x < 1000.
Proof.
  assert (Hq : x / 1000.0 == x * (1 # 1000)) by (field; discriminate).
  destruct (Qle_bool x 1000.0) eqn:E.
  - apply Qle_bool_iff in E. unfold Py.max.
    destruct (Qlt_bool 0.0 (1.0 - x / 1000.0)) eqn:F.
    + apply Qlt_bool_iff in F. split; intro G; lra.
    + apply Qlt_bool_false in F. split; intro G; [|lra].
      exfalso. revert G. apply Qle_not_lt. qdecide.
  - apply Qle_bool_false in E. split; intro G; [|lra].
    exfalso. revert G. apply Qle_not_lt. qdecide.
Qed.

Lemma o3_membership_cover (o3 : Q) :
  exists m, calculate_o3_membership o3 = Ok m /\
            (no_positive_degree m <-> o3 == 1000).
Proof.
  unfold calculate_o3_membership.
  assert (H03000 : 0.0 < 3000.0) by reflexivity.
  destruct (clamp_edges 0.0 3000.0 o3 H03000) as (X0 & X1 & X2 & X3 & X4).
  set (x := Py.max 0.0 (Py.min o3 3000.0)) in *.
  pose proof (o3_good_support x) as S1.
  set (v1 := if Qle_bool x 1000.0 then Py.max 0.0 (1.0 - x / 1000.0) else 0.0) in *.
  destruct (trimf_total x 1000.0 1500.0 2000.0) as (v2 & E2 & L2 & _).
  destruct (trimf_total x 1750.0 2250.0 2750.0) as (v3 & E3 & L3 & _).
  destruct (trap_right_total x 2500.0 3000.0) as (v4 & E4 & L4 & _).
  pose proof (trimf_support _ _ _ _ _ E2) as S2.
  pose proof (trimf_support _ _ _ _ _ E3) as S3.
  assert (S4 := trap_right_support _ _ _ _ (eq_refl : 2500.0 < 3000.0) E4).
  rewrite E2, E3, E4. cbn [bind].
  eexists. split; [reflexivity|].
  cbv [dict_literal fold_left dict_set fst snd]. simpl.
  rewrite !no_positive_cons, no_positive_nil.
  assert (Hx : x == 1000 <-> o3 == 1000).
  { split; intro G.
    - rewrite <- G. symmetry. apply X4; lra.
    - destruct (Qlt_le_dec 0.0 x) as [P|P].
      + destruct (Qlt_le_dec x 3000.0) as [R|R]; [rewrite (X4 P R); exact G|].
        apply X3 in R. lra.
      + apply X2 in P. lra. }
  rewrite <- Hx. clear X2 X3 X4 Hx.
  split.
  - intros (G1 & G2 & G3 & G4 & _).
    destruct (Qlt_le_dec x 1000) as [T1|T1];
      [exfalso; apply (Qlt_not_le 0 v1); [apply S1; lra | exact G1]|].
    destruct (Qlt_le_dec 1000 x) as [T0|T0]; [exfalso | lra].
    destruct (Qlt_le_dec x 2000) as [T2|T2]; [apply (Qlt_not_le 0 v2); [apply S2; lra | exact G2]|].
    destruct (Qlt_le_dec x 2750) as [T3|T3]; [apply (Qlt_not_le 0 v3); [apply S3; lra | exact G3]|].
    apply (Qlt_not_le 0 v4); [apply S4; lra | exact G4].
  - intros G.
    assert (N1 : ~ 0 < v1) by (intro P; apply S1 in P; lra).
    assert (N2 : ~ 0 < v2) by (intro P; apply S2 in P; lra).
    assert (N3 : ~ 0 < v3) by (intro P; apply S3 in P; lra).
    assert (N4 : ~ 0 < v4) by (intro P; apply S4 in P; lra).
    repeat split; lra.
Qed.

(** X7: the terms of each pollutant cover its universe but for isolated
    readings: no CO term has a positive degree exactly when the reading is
    at most 0 or at least 20, no NO2 term exactly at 50, no O3 term exactly
    at 1000. *)
Theorem membership_terms_cover (x : Q) :
  (exists m, calculate_co_membership x = Ok m /\
             (no_positive_degree m <-> x <= 0 \/ 20 <= x)) /\
  (exists m, calculate_no2_membership x = Ok m /\
             (no_positive_degree m <-> x == 50)) /\
  (exists m, calculate_o3_membership x = Ok m /\
             (no_positive_degree m <-> x == 1000)).
Proof.
  split; [apply co_membership_cover|].
  split; [apply no2_membership_cover | apply o3_membership_cover].
Qed.

(** X8: [simple_assess] finds no positive membership at all, and answers
    the default score 50, exactly when CO is at most 0 or at least 20, NO2 is
    50 and O3 is 10000 (which it rescales to 1000). *)
Theorem simple_assess_default_inputs (co no2 o3 : Q) :
  exists fuzzy_aqi category crisp_aqi co_m no2_m o3_m,
    simple_assess co no2 o3 =
      Ok (Simple fuzzy_aqi category crisp_aqi (co_m, no2_m, o3_m)) /\
    ((no_positive_degree co_m /\ no_positive_degree no2_m /\ no_positive_degree o3_m)
     <-> ((co <= 0 \/ 20 <= co) /\ no2 == 50 /\ o3 == 10000)) /\
    ((co <= 0 \/ 20 <= co) /\ no2 == 50 /\ o3 == 10000 -> fuzzy_aqi == 50).
Proof.
  destruct (simple_assess_total co no2 o3)
    as (f & c & k & m1 & m2 & m3 & Hs & _ & _ & Hmid).
  exists f, c, k, m1, m2, m3. split; [exact Hs|].
  unfold simple_assess in Hs.
  destruct (co_membership_cover co) as (n1 & F1 & C1).
  destruct (no2_membership_cover no2) as (n2 & F2 & C2).
  destruct (o3_membership_cover (if Qlt_bool 100 o3 then o3 / 10.0 else o3))
    as (n3 & F3 & C3).
  rewrite F1, F2, F3 in Hs. cbn [bind] in Hs.
  destruct (calculate_fuzzy_aqi n1 n2 n3) as [v|e]; cbn [bind] in Hs; [|discriminate Hs].
  injection Hs as _ _ _ <- <- <-.
  assert (Ho3 : (if Qlt_bool 100 o3 then o3 / 10.0 else o3) == 1000 <-> o3 == 10000).
  { assert (Hq : o3 / 10.0 == o3 * (1 # 10)) by (field; discriminate).
    destruct (Qlt_bool 100 o3) eqn:E.
    - apply Qlt_bool_iff in E. split; intro G; lra.
    - apply Qlt_bool_false in E. split; intro G; lra. }
  assert (Hiff : (no_positive_degree n1 /\ no_positive_degree n2 /\ no_positive_degree n3)
                 <-> ((co <= 0 \/ 20 <= co) /\ no2 == 50 /\ o3 == 10000)).
  { rewrite C1, C2, C3, Ho3. reflexivity. }
  split; [exact Hiff|].
  intro G. apply Hiff in G. destruct G as (G1 & G2 & G3).
  apply Hmid; assumption.
Qed.

Lemma simple_assess_default_inputs_witness :
  ((25 <= 0 \/ 20 <= 25) /\ 50 == 50 /\ 10000 == 10000) /\
  exists r, simple_assess 25 50 10000 = Ok r /\ result_fuzzy_aqi r == 50.
Proof.
  assert (H : (25 <= 0 \/ 20 <= 25) /\ 50 == 50 /\ 10000 == 10000).
  { split; [right; qdecide|]. split; reflexivity. }
  split; [exact H|].
  destruct (simple_assess_default_inputs 25 50 10000)
    as (f & c & k & m1 & m2 & m3 & Hs & _ & Hd).
  eexists. split; [exact Hs|]. cbn [result_fuzzy_aqi]. exact (Hd H).
Defined.

(** ** Results of a batch comparison *)

Lemma collect_step_entries (self : FuzzyAirQualitySystem) (acc : Predictions) (row : Row) :
  collect_step self acc row
  = {| fuzzy := fuzzy acc ++ [assessed_fuzzy_aqi self row];
       crisp := crisp acc ++ [calculate_epa_aqi row];
       ground_truth := ground_truth acc ++ [calculate_ground_truth row] |}.
Proof.
  unfold collect_step, compare_row, assessed_fuzzy_aqi, py_float. cbn [bind].
  destruct (comprehensive_assess_total self (CO row) (NO2 row) (O3_Sensor row)
              (Temperature row) (Humidity row)) as [r ->].
  reflexivity.
Qed.

Lemma fold_collect_entries (self : FuzzyAirQualitySystem) (rows : list Row) :
  forall acc,
    fold_left (collect_step self) rows acc
    = {| fuzzy := fuzzy acc ++ map (assessed_fuzzy_aqi self) rows;
         crisp := crisp acc ++ map calculate_epa_aqi rows;
         ground_truth := ground_truth acc ++ map calculate_ground_truth rows |}.
Proof.
  induction rows as [|row rows IH]; intro acc; cbn [fold_left map].
  - rewrite !app_nil_r. destruct acc; reflexivity.
  - rewrite IH, collect_step_entries. cbn [fuzzy crisp ground_truth].
    rewrite <- !app_assoc. reflexivity.
Qed.

Lemma collect_predictions_entries (self : FuzzyAirQualitySystem) (rows : list Row) :
  collect_predictions self rows
  = {| fuzzy := map (assessed_fuzzy_aqi self) rows;
       crisp := map calculate_epa_aqi rows;
       ground_truth := map calculate_ground_truth rows |}.
Proof. unfold collect_predictions. rewrite fold_collect_entries. reflexivity. Qed.

Section ComparisonResults.

Variable np_sqrt : npfloat -> npfloat.
Variable sklearn_f1_score : list nat -> list nat -> result npfloat.
Variable shuffle : list Row -> list Row.

(** X10: a negative sample count is not an error of the caller's: the
    sampling raises, the outer handler absorbs it, and the comparison returns
    the failure result with the default metrics and empty series. *)
Theorem compare_methods_negative_count (self : FuzzyAirQualitySystem) (n_samples : Z) :
  (n_samples < 0)%Z ->
  compare_methods np_sqrt sklearn_f1_score shuffle self n_samples
  = Ok (failure_result ValueError).
Proof.
  intro H. unfold compare_methods, df_sample.
  rewrite Z.min_l by lia.
  destruct (n_samples <? 0)%Z eqn:E; [reflexivity|].
  apply Z.ltb_ge in E. lia.
Qed.

(** X11: in every successful comparison the three series are index-aligned
    with the sampled rows: entry i of each series is computed from row i, no
    row is skipped, the reported sample size is the number of sampled rows and
    never exceeds the requested count. *)
Theorem compare_methods_series_aligned (self : FuzzyAirQualitySystem) (n_samples : Z)
  (r : CompareResult) :
  compare_methods np_sqrt sklearn_f1_score shuffle self n_samples = Ok r ->
  success r = true ->
  exists rows,
    df_sample shuffle (data self)
      (Z.min n_samples (Z.of_nat (List.length (data self)))) = Ok rows /\
    fuzzy (predictions r) = map (assessed_fuzzy_aqi self) rows /\
    crisp (predictions r) = map calculate_epa_aqi rows /\
    ground_truth (predictions r) = map calculate_ground_truth rows /\
    sample_size r = Some (List.length rows) /\
    (Z.of_nat (List.length rows) <= n_samples)%Z.
Proof.
  unfold compare_methods. intros H Hs.
  destruct (df_sample shuffle (data self) _) as [rows|e] eqn:E; cbn [bind try_except] in H.
  - match type of H with
    | try_except (bind ?m _) _ = _ => destruct m as [m'|e]
    end; cbn [bind try_except] in H; injection H as <-; cbn [success] in Hs;
      [|discriminate Hs].
    exists rows. split; [reflexivity|].
    cbn [predictions sample_size]. rewrite collect_predictions_entries.
    cbn [fuzzy crisp ground_truth]. rewrite length_map.
    repeat split.
    unfold df_sample in E.
    destruct (_ <? 0)%Z eqn:E0; [discriminate E|].
    destruct (_ <? _)%Z eqn:E1 in E; [discriminate E|].
    injection E as <-. apply Z.ltb_ge in E0.
    pose proof (firstn_le_length
                  (Z.to_nat (Z.min n_samples (Z.of_nat (List.length (data self)))))
                  (shuffle (data self))) as Hl.
    lia.
  - injection H as <-. discriminate Hs.
Qed.

(** X12: once more than 10 triples are collected the metrics are computed
    from them; if that computation raises, the whole comparison turns into
    the failure result and the collected predictions are dropped. *)
Theorem compare_methods_large_batch (self : FuzzyAirQualitySystem) (n_samples : Z)
  (rows : list Row) :
  df_sample shuffle (data self)
    (Z.min n_samples (Z.of_nat (List.length (data self)))) = Ok rows ->
  (10 < List.length rows)%nat ->
  match calculate_enhanced_metrics np_sqrt sklearn_f1_score
          (map (assessed_fuzzy_aqi self) rows) (map calculate_epa_aqi rows)
          (map calculate_ground_truth rows) with
  | Ok m =>
      compare_methods np_sqrt sklearn_f1_score shuffle self n_samples
      = Ok (success_result m (collect_predictions self rows))
  | Raise e =>
      compare_methods np_sqrt sklearn_f1_score shuffle self n_samples
      = Ok (failure_result e)
  end.
Proof.
  intros Hs Hlen. unfold compare_methods. rewrite Hs. cbn [bind].
  rewrite collect_predictions_entries. cbn [fuzzy crisp ground_truth].
  rewrite length_map.
  destruct (10 <? List.length rows)%nat eqn:E;
    [|apply Nat.ltb_ge in E; lia].
  destruct (calculate_enhanced_metrics _ _ _ _ _) as [m|e]; reflexivity.
Qed.

End ComparisonResults.

Lemma compare_methods_negative_count_witness :
  (-1 < 0)%Z /\
  compare_methods (fun x => x) (fun _ _ => Ok (Fin 1)) (fun df => df) small_system (-1)
  = Ok (failure_result ValueError).
Proof.
  assert (H : (-1 < 0)%Z) by reflexivity.
  split; [exact H|].
  exact (compare_methods_negative_count (fun x => x) (fun _ _ => Ok (Fin 1))
           (fun df => df) small_system (-1) H).
Defined.

Lemma compare_methods_series_aligned_witness :
  exists r,
    compare_methods (fun x => x) (fun _ _ => Ok (Fin 1)) (fun df => df) small_system 5
    = Ok r /\
    success r = true /\
    fuzzy (predictions r) = [42; 42] /\
    sample_size r = Some 2%nat.
Proof.
  destruct (compare_methods (fun x => x) (fun _ _ => Ok (Fin 1)) (fun df => df)
              small_system 5) as [r|e] eqn:E; [|vm_compute in E; discriminate E].
  assert (Hs : success r = true) by (vm_compute in E; injection E as <-; reflexivity).
  exists r. split; [reflexivity|]. split; [exact Hs|].
  destruct (compare_methods_series_aligned _ _ _ _ _ _ E Hs)
    as (rows & Hrows & Hf & _ & _ & Hn & _).
  vm_compute in Hrows. injection Hrows as <-.
  split; [exact Hf | exact Hn].
Defined.

Lemma compare_methods_large_batch_witness :
  df_sample (fun df => df) (data twelve_row_system)
    (Z.min 12 (Z.of_nat (List.length (data twelve_row_system))))
  = Ok (data twelve_row_system) /\
  (10 < List.length (data twelve_row_system))%nat /\
  compare_methods (fun x => x) (fun _ _ => Raise TypeError) (fun df => df)
    twelve_row_system 12
  = Ok (failure_result TypeError).
Proof.
  assert (H1 : df_sample (fun df => df) (data twelve_row_system)
                 (Z.min 12 (Z.of_nat (List.length (data twelve_row_system))))
               = Ok (data twelve_row_system)) by reflexivity.
  assert (H2 : (10 < List.length (data twelve_row_system))%nat) by (cbn; lia).
  split; [exact H1|]. split; [exact H2|].
  pose proof (compare_methods_large_batch (fun x => x) (fun _ _ => Raise TypeError)
                (fun df => df) twelve_row_system 12 (data twelve_row_system) H1 H2) as H.
  exact H.
Defined.

(** ** Metrics of a batch *)

Lemma zip_with_length {A B C : Type} (f : A -> B -> C) (xs : list A) :
  forall ys zs,
    Np.zip_with f xs ys = Ok zs ->
    List.length zs = List.length xs /\ List.length ys = List.length xs.
Proof.
  induction xs as [|x xs IH]; intros [|y ys] zs H; cbn [Np.zip_with] in H;
    try discriminate H.
  - injection H as <-. split; reflexivity.
  - apply bind_Ok_inv in H. destruct H as (zs' & Hz & H). injection H as <-.
    destruct (IH _ _ Hz) as [L1 L2]. cbn [List.length]. split; congruence.
Qed.

Lemma zip_with_diag {A C : Type} (f : A -> A -> C) (xs : list A) :
  Np.zip_with f xs xs = Ok (map (fun x => f x x) xs).
Proof.
  induction xs as [|x xs IH]; cbn [Np.zip_with map]; [reflexivity|].
  rewrite IH. reflexivity.
Qed.

Lemma count_true_le_length (bs : list bool) :
  (Np.count_true bs <= List.length bs)%nat.
Proof. unfold Np.count_true. apply filter_length_le. Qed.

Lemma mean_bool_range (bs : list bool) :
  bs <> [] -> exists q, Np.mean_bool bs = Fin q /\ 0 <= q /\ q <= 1.
Proof.
  intro Hne. unfold Np.mean_bool. destruct bs as [|b bs]; [contradiction|].
  eexists. split; [reflexivity|].
  pose proof (count_true_le_length (b :: bs)) as Hc.
  assert (Hn : 0 < inject_Z (Z.of_nat (List.length (b :: bs)))).
  { change 0 with (inject_Z 0). rewrite <- Zlt_Qlt. cbn [List.length]. lia. }
  assert (H0 : 0 <= inject_Z (Z.of_nat (Np.count_true (b :: bs)))).
  { change 0 with (inject_Z 0). rewrite <- Zle_Qle. lia. }
  assert (H1 : inject_Z (Z.of_nat (Np.count_true (b :: bs)))
               <= inject_Z (Z.of_nat (List.length (b :: bs)))).
  { rewrite <- Zle_Qle. lia. }
  apply ratio_in_unit; assumption.
Qed.

Lemma count_true_all (bs : list bool) :
  Forall (fun b => b = true) bs -> Np.count_true bs = List.length bs.
Proof.
  unfold Np.count_true. induction 1 as [|b bs Hb HF IH]; [reflexivity|].
  subst b. cbn [filter List.length]. rewrite IH. reflexivity.
Qed.

Lemma mean_bool_all_true (bs : list bool) :
  bs <> [] -> Forall (fun b => b = true) bs ->
  exists q, Np.mean_bool bs = Fin q /\ q == 1.
Proof.
  intros Hne HF. pose proof (count_true_all bs HF) as Hc.
  unfold Np.mean_bool. destruct bs as [|b bs]; [contradiction|].
  eexists. split; [reflexivity|]. rewrite Hc. apply ratio_self.
  intro H. change 0 with (inject_Z 0) in H.
  apply (proj1 (inject_Z_injective _ _)) in H.
  cbn [List.length] in H. lia.
Qed.

Lemma ratio_neg_divisor (n d : Q) : d < 0 -> 0 <= n -> n / d <= 0.
Proof.
  intros Hd Hn.
  assert (E : n / d == - (n / - d)) by (field; lra).
  assert (P : 0 <= n / - d) by (apply Qle_shift_div_l; lra).
  lra.
Qed.

(** X13: the satisfaction rate of a series is the fraction of its samples
    within tolerance; against a positive ground truth a prediction is within
    tolerance exactly when it lies between 0.8 and 1.2 times the ground
    truth; against a negative ground truth every prediction is. *)
Theorem within_tolerance_band (samples : list (Q * Q)) (pred gt : Q) :
  satisfaction_rate (map fst samples) (map snd samples)
  = Ok (Np.mean_bool (map (fun s => within_tolerance (fst s) (snd s)) samples)) /\
  (0 < gt ->
   (within_tolerance pred gt = true <-> 0.8 * gt <= pred /\ pred <= 1.2 * gt)) /\
  (gt < 0 -> within_tolerance pred gt = true).
Proof.
  split; [apply satisfaction_rate_series|]. split.
  - intro Hgt. unfold within_tolerance, Np.divide1.
    destruct (Qeq_bool gt 0) eqn:E; [apply Qeq_bool_iff in E; lra|].
    cbn [Np.less_equal1]. rewrite Qle_bool_iff.
    split.
    + intro H.
      assert (K : Qabs (pred - gt) <= 0.2 * gt).
      { apply (Qmult_le_r _ _ gt) in H; [|exact Hgt].
        assert (D : Qabs (pred - gt) / gt * gt == Qabs (pred - gt)) by (field; lra).
        lra. }
      revert K. apply Qabs_case; intros; lra.
    + intros [H1 H2]. apply Qle_shift_div_r; [exact Hgt|].
      apply Qabs_case; intros; lra.
  - intro Hgt. unfold within_tolerance, Np.divide1.
    destruct (Qeq_bool gt 0) eqn:E; [apply Qeq_bool_iff in E; lra|].
    cbn [Np.less_equal1]. apply Qle_bool_iff.
    pose proof (ratio_neg_divisor (Qabs (pred - gt)) gt Hgt (Qabs_nonneg _)).
    lra.
Qed.

Lemma within_tolerance_band_witness :
  0 < 100 /\ (-5) < 0 /\
  within_tolerance 110 100 = true /\ within_tolerance 1000 (-5) = true.
Proof.
  assert (H1 : 0 < 100) by reflexivity.
  assert (H2 : (-5) < 0) by reflexivity.
  split; [exact H1|]. split; [exact H2|].
  split.
  - destruct (within_tolerance_band [] 110 100) as (_ & Hb & _).
    apply (Hb H1). split; qdecide.
  - destruct (within_tolerance_band [] 1000 (-5)) as (_ & _ & Hn).
    exact (Hn H2).
Defined.

Lemma fold_sum_zero (xs : list Q) :
  Forall (fun x => x == 0) xs -> forall acc, fold_left Qplus xs acc == acc.
Proof.
  induction 1 as [|x xs Hx HF IH]; intro acc; cbn [fold_left]; [reflexivity|].
  rewrite IH. lra.
Qed.

Lemma fold_sum_nonneg (xs : list Q) :
  Forall (fun x => 0 <= x) xs -> forall acc, acc <= fold_left Qplus xs acc.
Proof.
  induction 1 as [|x xs Hx HF IH]; intro acc; cbn [fold_left]; [lra|].
  specialize (IH (acc + x)). lra.
Qed.

Lemma mean_abs_nonneg (ds : list Q) :
  ds <> [] -> exists q, Np.mean (map Qabs ds) = Fin q /\ 0 <= q.
Proof.
  intro Hne. destruct ds as [|d ds]; [contradiction|].
  unfold Np.mean. cbn [map]. eexists. split; [reflexivity|].
  apply Qle_shift_div_l.
  - change 0 with (inject_Z 0). rewrite <- Zlt_Qlt. cbn [List.length]. lia.
  - rewrite Qmult_0_l. apply (fold_sum_nonneg (Qabs d :: map Qabs ds)).
    apply Forall_forall. intros x Hx. change (Qabs d :: map Qabs ds) with (map Qabs (d :: ds)) in Hx.
    apply in_map_iff in Hx. destruct Hx as (y & <- & _). apply Qabs_nonneg.
Qed.

Section MetricValues.

Variable np_sqrt : npfloat -> npfloat.
Variable sklearn_f1_score : list nat -> list nat -> result npfloat.

(** What each entry of the metrics is computed from. *)
Lemma calculate_enhanced_metrics_fields (fuzzy_pred crisp_pred truth : list Q)
  (m : Metrics) :
  calculate_enhanced_metrics np_sqrt sklearn_f1_score fuzzy_pred crisp_pred truth = Ok m ->
  exists d_fuzzy d_crisp eq_fuzzy eq_crisp,
    Np.subtract fuzzy_pred truth = Ok d_fuzzy /\
    Np.subtract crisp_pred truth = Ok d_crisp /\
    Np.equal_nat (map categorize fuzzy_pred) (map categorize truth) = Ok eq_fuzzy /\
    Np.equal_nat (map categorize crisp_pred) (map categorize truth) = Ok eq_crisp /\
    mae (metrics_fuzzy m) = Np.mean (map Qabs d_fuzzy) /\
    mae (metrics_crisp m) = Np.mean (map Qabs d_crisp) /\
    accuracy (metrics_fuzzy m) = Np.mean_bool eq_fuzzy /\
    accuracy (metrics_crisp m) = Np.mean_bool eq_crisp /\
    satisfaction_rate fuzzy_pred truth = Ok (satisfaction (metrics_fuzzy m)) /\
    satisfaction_rate crisp_pred truth = Ok (satisfaction (metrics_crisp m)).
Proof.
  unfold calculate_enhanced_metrics. intro H.
  apply bind_Ok_inv in H. destruct H as (d_fuzzy & H1 & H).
  apply bind_Ok_inv in H. destruct H as (d_crisp & H2 & H).
  apply bind_Ok_inv in H. destruct H as (eq_fuzzy & H3 & H).
  apply bind_Ok_inv in H. destruct H as (eq_crisp & H4 & H).
  apply bind_Ok_inv in H. destruct H as (f1_fuzzy & H5 & H).
  apply bind_Ok_inv in H. destruct H as (f1_crisp & H6 & H).
  apply bind_Ok_inv in H. destruct H as (sat_fuzzy & H7 & H).
  apply bind_Ok_inv in H. destruct H as (sat_crisp & H8 & H).
  injection H as <-.
  exists d_fuzzy, d_crisp, eq_fuzzy, eq_crisp.
  cbn [mae accuracy satisfaction metrics_fuzzy metrics_crisp].
  repeat split; assumption.
Qed.

(** X14: over a non-empty batch, the mean absolute error of each series is a
    non-negative number and its accuracy and satisfaction are fractions in
    [0,1]. *)
Theorem metrics_ranges (fuzzy_pred crisp_pred truth : list Q) (m : Metrics) :
  calculate_enhanced_metrics np_sqrt sklearn_f1_score fuzzy_pred crisp_pred truth = Ok m ->
  truth <> [] ->
  (exists q, mae (metrics_fuzzy m) = Fin q /\ 0 <= q) /\
  (exists q, mae (metrics_crisp m) = Fin q /\ 0 <= q) /\
  (exists q, accuracy (metrics_fuzzy m) = Fin q /\ 0 <= q /\ q <= 1) /\
  (exists q, accuracy (metrics_crisp m) = Fin q /\ 0 <= q /\ q <= 1) /\
  (exists q, satisfaction (metrics_fuzzy m) = Fin q /\ 0 <= q /\ q <= 1) /\
  (exists q, satisfaction (metrics_crisp m) = Fin q /\ 0 <= q /\ q <= 1).
Proof.
  intros H Hne.
  destruct (calculate_enhanced_metrics_fields _ _ _ _ H)
    as (d_f & d_c & e_f & e_c & H1 & H2 & H3 & H4 & M1 & M2 & A1 & A2 & S1 & S2).
  assert (Hlen : List.length truth <> 0%nat) by (destruct truth; [contradiction | discriminate]).
  assert (nonempty : forall (A : Type) (l : list A),
             List.length l = List.length truth -> l <> []).
  { intros A l Hl Hnil. subst l. cbn in Hl. congruence. }
  destruct (zip_with_length _ _ _ _ H1) as [L1 L1'].
  destruct (zip_with_length _ _ _ _ H2) as [L2 L2'].
  destruct (zip_with_length _ _ _ _ H3) as [L3 L3'].
  destruct (zip_with_length _ _ _ _ H4) as [L4 L4'].
  rewrite length_map in L3, L3', L4, L4'.
  rewrite M1, M2, A1, A2.
  split; [apply mean_abs_nonneg; apply nonempty; congruence|].
  split; [apply mean_abs_nonneg; apply nonempty; congruence|].
  split; [apply mean_bool_range; apply nonempty; congruence|].
  split; [apply mean_bool_range; apply nonempty; congruence|].
  unfold satisfaction_rate, relative_error in S1, S2.
  apply bind_Ok_inv in S1. destruct S1 as (err1 & E1 & S1).
  apply bind_Ok_inv in S2. destruct S2 as (err2 & E2 & S2).
  apply bind_Ok_inv in E1. destruct E1 as (df & D1 & E1).
  apply bind_Ok_inv in E2. destruct E2 as (dc & D2 & E2).
  destruct (zip_with_length _ _ _ _ E1) as [_ K1].
  destruct (zip_with_length _ _ _ _ E2) as [K2' K2].
  destruct (zip_with_length _ _ _ _ E1) as [K1' _].
  rewrite length_map in K1, K2, K1', K2'.
  injection S1 as <-. injection S2 as <-.
  split; apply mean_bool_range; intro Hnil;
    apply (f_equal (@List.length bool)) in Hnil; rewrite length_map in Hnil;
    cbn in Hnil; congruence.
Qed.

End MetricValues.

Lemma metrics_ranges_witness :
  exists m,
    calculate_enhanced_metrics (fun x => x) (fun _ _ => Ok (Fin 1))
      [40; 120] [60; 90] [50; 100] = Ok m /\
    [50; 100] <> [] /\
    (exists q, accuracy (metrics_fuzzy m) = Fin q /\ 0 <= q /\ q <= 1).
Proof.
  destruct (calculate_enhanced_metrics (fun x => x) (fun _ _ => Ok (Fin 1))
              [40; 120] [60; 90] [50; 100]) as [m|e] eqn:E;
    [|vm_compute in E; discriminate E].
  assert (Hne : [50; 100] <> ([] : list Q)) by discriminate.
  exists m. split; [reflexivity|]. split; [exact Hne|].
  destruct (metrics_ranges (fun x => x) (fun _ _ => Ok (Fin 1)) _ _ _ m E Hne)
    as (_ & _ & Ha & _).
  exact Ha.
Defined.

Lemma within_tolerance_refl (g : Q) : ~ g == 0 -> within_tolerance g g = true.
Proof.
  intro Hg. unfold within_tolerance, Np.divide1.
  apply Qeq_bool_false in Hg. rewrite Hg. cbn [Np.less_equal1].
  apply Qle_bool_iff. apply Qeq_bool_false in Hg.
  assert (E : Qabs (g - g) == 0).
  { assert (Z0 : g - g == 0) by ring. rewrite Z0. reflexivity. }
  rewrite E. assert (D : 0 / g == 0) by (field; exact Hg). rewrite D. qdecide.
Qed.

Section PerfectSeries.

Variable np_sqrt : npfloat -> npfloat.
Variable sklearn_f1_score : list nat -> list nat -> result npfloat.

Lemma mae_of_equal_series (truth d : list Q) :
  truth <> [] -> Np.subtract truth truth = Ok d ->
  exists q, Np.mean (map Qabs d) = Fin q /\ q == 0.
Proof.
  intros Hne H. unfold Np.subtract in H. rewrite zip_with_diag in H.
  injection H as <-. rewrite map_map.
  destruct truth as [|g truth]; [contradiction|].
  unfold Np.mean. cbn [map]. eexists. split; [reflexivity|].
  assert (S0 : fold_left Qplus
                 (Qabs (g - g) :: map (fun x => Qabs (x - x)) truth) 0 == 0).
  { apply (fold_sum_zero (Qabs (g - g) :: map (fun x => Qabs (x - x)) truth)).
    change (Qabs (g - g) :: map (fun x => Qabs (x - x)) truth)
      with (map (fun x => Qabs (x - x)) (g :: truth)).
    apply Forall_forall. intros x Hx. apply in_map_iff in Hx.
    destruct Hx as (y & <- & _).
    assert (Z0 : y - y == 0) by ring. rewrite Z0. reflexivity. }
  rewrite S0. unfold Qdiv. apply Qmult_0_l.
Qed.

Lemma accuracy_of_equal_series (truth : list Q) (e : list bool) :
  truth <> [] ->
  Np.equal_nat (map categorize truth) (map categorize truth) = Ok e ->
  exists q, Np.mean_bool e = Fin q /\ q == 1.
Proof.
  intros Hne H. unfold Np.equal_nat in H. rewrite zip_with_diag in H.
  injection H as <-. apply mean_bool_all_true.
  - destruct truth; [contradiction | discriminate].
  - apply Forall_forall. intros b Hb. apply in_map_iff in Hb.
    destruct Hb as (c & <- & _). apply Nat.eqb_refl.
Qed.

Lemma satisfaction_of_equal_series (truth : list Q) :
  truth <> [] -> Forall (fun g => ~ g == 0) truth ->
  exists q, satisfaction_rate truth truth = Ok (Fin q) /\ q == 1.
Proof.
  intros Hne HF.
  pose proof (satisfaction_rate_series (fun g : Q => g) (fun g : Q => g) truth) as H.
  rewrite map_id in H. rewrite H.
  destruct (mean_bool_all_true (map (fun s => within_tolerance s s) truth))
    as (q & Hq & Hq1).
  - destruct truth; [contradiction | discriminate].
  - apply Forall_forall. intros b Hb. apply in_map_iff in Hb.
    destruct Hb as (g & <- & Hg). apply within_tolerance_refl.
    rewrite Forall_forall in HF. apply HF. exact Hg.
  - exists q. rewrite Hq. split; [reflexivity | exact Hq1].
Qed.

(** X15: a fuzzy series equal to the ground truth over a non-empty batch
    has mean absolute error 0 and accuracy 1, and satisfaction 1 provided no
    ground truth is 0. *)
Theorem exact_series_metrics (crisp_pred truth : list Q) (m : Metrics) :
  calculate_enhanced_metrics np_sqrt sklearn_f1_score truth crisp_pred truth = Ok m ->
  truth <> [] ->
  (exists q, mae (metrics_fuzzy m) = Fin q /\ q == 0) /\
  (exists q, accuracy (metrics_fuzzy m) = Fin q /\ q == 1) /\
  (Forall (fun g => ~ g == 0) truth ->
   exists q, satisfaction (metrics_fuzzy m) = Fin q /\ q == 1).
Proof.
  intros H Hne.
  destruct (calculate_enhanced_metrics_fields _ _ _ _ _ _ H)
    as (d_f & d_c & e_f & e_c & H1 & H2 & H3 & H4 & M1 & M2 & A1 & A2 & S1 & S2).
  rewrite M1, A1.
  split; [exact (mae_of_equal_series truth d_f Hne H1)|].
  split; [exact (accuracy_of_equal_series truth e_f Hne H3)|].
  intro HF. destruct (satisfaction_of_equal_series truth Hne HF) as (q & Hq & Hq1).
  rewrite Hq in S1. injection S1 as S1. exists q. split; [symmetry; exact S1 | exact Hq1].
Qed.

End PerfectSeries.

Lemma exact_series_metrics_witness :
  exists m,
    calculate_enhanced_metrics (fun x => x) (fun _ _ => Ok (Fin 1))
      [50; 100] [60; 90] [50; 100] = Ok m /\
    [50; 100] <> [] /\
    Forall (fun g => ~ g == 0) [50; 100] /\
    (exists q, mae (metrics_fuzzy m) = Fin q /\ q == 0) /\
    (exists q, satisfaction (metrics_fuzzy m) = Fin q /\ q == 1).
Proof.
  destruct (calculate_enhanced_metrics (fun x => x) (fun _ _ => Ok (Fin 1))
              [50; 100] [60; 90] [50; 100]) as [m|e] eqn:E;
    [|vm_compute in E; discriminate E].
  assert (Hne : [50; 100] <> ([] : list Q)) by discriminate.
  assert (HF : Forall (fun g => ~ g == 0) [50; 100])
    by (repeat constructor; intro H; discriminate H).
  exists m. split; [reflexivity|]. split; [exact Hne|]. split; [exact HF|].
  destruct (exact_series_metrics (fun x => x) (fun _ _ => Ok (Fin 1)) _ _ m E Hne)
    as (Hm & _ & Hs).
  split; [exact Hm | exact (Hs HF)].
Defined.

(** ** The rule base *)

Section RuleBase.

Variable and_op or_op : Q -> Q -> Q.
Variable degree : string -> string -> Q.

Hypothesis and_le_l : forall a b, and_op a b <= a.
Hypothesis and_le_r : forall a b, and_op a b <= b.
Hypothesis and_mono : forall a a' b b', a <= a' -> b <= b' -> and_op a b <= and_op a' b'.
Hypothesis or_ge_l : forall a b, a <= or_op a b.
Hypothesis or_ge_r : forall a b, b <= or_op a b.
Hypothesis or_mono : forall a a' b b', a <= a' -> b <= b' -> or_op a b <= or_op a' b'.

(** X16: whatever monotone conjunction and disjunction the inference
    applies, the second rule never fires more strongly than the seventh, which
    has the same consequent Moderate, and the tenth rule never more strongly
    than the fifth, which has the same consequent Hazardous. *)
Theorem subsumed_rules :
  exists r2 r7 r10 r5,
    nth_error build_rule_base 1 = Some r2 /\
    nth_error build_rule_base 6 = Some r7 /\
    nth_error build_rule_base 9 = Some r10 /\
    nth_error build_rule_base 4 = Some r5 /\
    rule_consequent r2 = rule_consequent r7 /\
    rule_consequent r10 = rule_consequent r5 /\
    firing_strength and_op or_op degree (rule_antecedent r2)
    <= firing_strength and_op or_op degree (rule_antecedent r7) /\
    firing_strength and_op or_op degree (rule_antecedent r10)
    <= firing_strength and_op or_op degree (rule_antecedent r5).
Proof.
  do 4 eexists.
  split; [reflexivity|]. split; [reflexivity|].
  split; [reflexivity|]. split; [reflexivity|].
  split; [reflexivity|]. split; [reflexivity|].
  cbn [rule_antecedent firing_strength co_level no2_level o3_level temperature].
  split.
  - apply and_mono; [|apply Qle_refl].
    eapply Qle_trans; [apply and_le_r | apply or_ge_r].
  - apply or_mono.
    + eapply Qle_trans; [apply and_le_l | apply or_ge_l].
    + apply and_le_l.
Qed.

End RuleBase.

Lemma subsumed_rules_witness :
  exists r2 r7,
    nth_error build_rule_base 1 = Some r2 /\
    nth_error build_rule_base 6 = Some r7 /\
    firing_strength Qmin Qmax (fun _ _ => 1 # 2) (rule_antecedent r2)
    <= firing_strength Qmin Qmax (fun _ _ => 1 # 2) (rule_antecedent r7).
Proof.
  destruct (subsumed_rules Qmin Qmax (fun _ _ => 1 # 2)
              (fun a b => Q.le_min_l a b) (fun a b => Q.le_min_r a b)
              (fun a a' b b' Ha Hb => Q.min_le_compat a a' b b' Ha Hb)
              (fun a b => Q.le_max_l a b) (fun a b => Q.le_max_r a b)
              (fun a a' b b' Ha Hb => Q.max_le_compat a a' b b' Ha Hb))
    as (r2 & r7 & r10 & r5 & H2 & H7 & _ & _ & _ & _ & Hle & _).
  exists r2, r7. split; [exact H2|]. split; [exact H7 | exact Hle].
Defined.

(** X17: the rule base holds ten rules; every term an antecedent mentions
    is declared for its variable, every consequent is a declared AQI term,
    and every declared AQI term is the consequent of some rule. *)
Theorem rule_base_refers_to_declared_terms :
  List.length build_rule_base = 10%nat /\
  Forall (fun r => rule_well_formed r = true) build_rule_base /\
  (forall term shape,
     declared "AQI" term = Some shape ->
     exists r, In r build_rule_base /\ rule_consequent r = term).
Proof.
  split; [reflexivity|]. split.
  - apply Forall_forall. intros r Hr.
    assert (H : forallb rule_well_formed build_rule_base = true)
      by (vm_compute; reflexivity).
    rewrite forallb_forall in H. exact (H r Hr).
  - intros term shape H. unfold declared in H. cbn [dict_find init_fuzzy_variables] in H.
    simpl in H.
    repeat match type of H with
           | (if String.eqb term ?k then _ else _) = _ =>
               let E := fresh "E" in
               destruct (String.eqb term k) eqn:E;
               [apply String.eqb_eq in E; subst term;
                assert (X : existsb (fun r => String.eqb (rule_consequent r) k)
                              build_rule_base = true) by (vm_compute; reflexivity);
                apply existsb_exists in X; destruct X as (r & Hin & Hr);
                apply String.eqb_eq in Hr; exists r; split; assumption |]
           end.
    discriminate H.
Qed.

Lemma rule_base_refers_to_declared_terms_witness :
  declared "AQI" "Hazardous" = Some (Trapmf 301 400 500 500) /\
  exists r, In r build_rule_base /\ rule_consequent r = "Hazardous".
Proof.
  assert (H : declared "AQI" "Hazardous" = Some (Trapmf 301 400 500 500))
    by reflexivity.
  split; [exact H|].
  destruct rule_base_refers_to_declared_terms as (_ & _ & Hc).
  exact (Hc _ _ H).
Defined.

(** ** HTTP handlers *)

Lemma dict_find_get {V : Type} (d : dict V) (k : string) (v default : V) :
  dict_find d k = Some v -> dict_get d k default = v.
Proof.
  induction d as [|[k' v'] d IH]; cbn [dict_find dict_get]; [discriminate|].
  destruct (String.eqb k k'); [intro H; injection H as <-; reflexivity | exact IH].
Qed.

Lemma get_float_numeric (data : dict json) (key : string) (default : Q) :
  numeric_body data -> get_float data key default = Ok (number_field data key default).
Proof.
  intro H. unfold get_float, number_field.
  assert (G : exists q, dict_get data key (JNum default) = JNum q).
  { apply (dict_get_forall (fun v => exists q, v = JNum q)); [exact H|].
    eexists; reflexivity. }
  destruct G as [q ->]. reflexivity.
Qed.

Lemma get_float_bad (data : dict json) (key : string) (default : Q) (e : exn) :
  dict_find data key = Some (JOther e) -> get_float data key default = Raise e.
Proof.
  intro H. unfold get_float. rewrite (dict_find_get _ _ _ _ H). reflexivity.
Qed.

(** X18: on a non-empty numeric body, [/assess] answers the assessment of
    the fields co_gt, no2_gt and o3_sensor at the fixed temperature 20 and
    humidity 50, whatever temperature and humidity the request carries, while
    [/enhanced_assess] assesses with the temperature and humidity of the
    request. *)
Theorem assess_endpoint_ignores_environment (fuzzy_system : FuzzyAirQualitySystem)
  (data : dict json) :
  data <> [] -> numeric_body data ->
  exists body sensor_data body' sensor_data',
    assess_air_quality fuzzy_system (Ok (Some data)) = Assessed body sensor_data /\
    comprehensive_assess fuzzy_system
      (number_field data "co_gt" 2.5) (number_field data "no2_gt" 80)
      (number_field data "o3_sensor" 750) 20.0 50.0 = Ok body /\
    enhanced_assess_air_quality fuzzy_system (Ok (Some data))
    = Assessed body' sensor_data' /\
    comprehensive_assess fuzzy_system
      (number_field data "co_gt" 2.5) (number_field data "no2_gt" 80)
      (number_field data "o3_sensor" 750)
      (number_field data "temperature" 20.0) (number_field data "humidity" 50.0)
    = Ok body'.
Proof.
  intros Hne Hnum.
  destruct (comprehensive_assess_total fuzzy_system
              (number_field data "co_gt" 2.5) (number_field data "no2_gt" 80)
              (number_field data "o3_sensor" 750) 20.0 50.0) as [body Hb].
  destruct (comprehensive_assess_total fuzzy_system
              (number_field data "co_gt" 2.5) (number_field data "no2_gt" 80)
              (number_field data "o3_sensor" 750)
              (number_field data "temperature" 20.0)
              (number_field data "humidity" 50.0)) as [body' Hb'].
  exists body. eexists. exists body'. eexists.
  split; [|split; [exact Hb|split; [|exact Hb']]].
  - unfold assess_air_quality, assess. cbn [bind].
    destruct data as [|kv data]; [contradiction|].
    rewrite !(get_float_numeric _ _ _ Hnum). cbn [bind].
    rewrite Hb. cbn [bind]. reflexivity.
  - unfold enhanced_assess_air_quality. cbn [bind].
    destruct data as [|kv data]; [contradiction|].
    rewrite !(get_float_numeric _ _ _ Hnum). cbn [bind].
    rewrite Hb'. cbn [bind]. reflexivity.
Qed.

Lemma assess_endpoint_ignores_environment_witness :
  [("co_gt", JNum 1); ("temperature", JNum 40)] <> [] /\
  numeric_body [("co_gt", JNum 1); ("temperature", JNum 40)] /\
  exists body sensor_data,
    assess_air_quality small_system
      (Ok (Some [("co_gt", JNum 1); ("temperature", JNum 40)]))
    = Assessed body sensor_data /\
    comprehensive_assess small_system 1 80 750 20.0 50.0 = Ok body.
Proof.
  assert (H1 : [("co_gt", JNum 1); ("temperature", JNum 40)] <> ([] : dict json))
    by discriminate.
  assert (H2 : numeric_body [("co_gt", JNum 1); ("temperature", JNum 40)])
    by (repeat constructor; eexists; reflexivity).
  split; [exact H1|]. split; [exact H2|].
  destruct (assess_endpoint_ignores_environment small_system _ H1 H2)
    as (body & sensor & _ & _ & Ha & Hb & _).
  exists body, sensor. split; [exact Ha | exact Hb].
Defined.

(** X19: a request field that is not a number makes [/assess] answer its
    fixed error body (score 50, category Fair), also when the field is one
    the assessment does not use; an absent or empty body gets the
    no-data answer. *)
Theorem assess_endpoint_rejects_bad_field (fuzzy_system : FuzzyAirQualitySystem)
  (data : dict json) (key : string) (e : exn) :
  data <> [] -> In key request_fields -> dict_find data key = Some (JOther e) ->
  (exists e',
     assess_air_quality fuzzy_system (Ok (Some data))
     = AssessFailed e' 50.0 "Fair" 50.0 error_membership) /\
  assess_air_quality fuzzy_system (Ok None) = NoDataProvided /\
  assess_air_quality fuzzy_system (Ok (Some [])) = NoDataProvided.
Proof.
  intros Hne Hin Hbad. split; [|split; reflexivity].
  pose proof (fun d => get_float_bad data key d e Hbad) as Hraise.
  unfold assess_air_quality. cbn [bind].
  destruct data as [|kv data]; [contradiction|].
  set (body := kv :: data) in *.
  repeat match goal with
         | |- context [bind (get_float body ?k ?d) _] =>
             let x := fresh "x" in
             let E := fresh "E" in
             destruct (get_float body k d) as [x|?] eqn:E; cbn [bind];
             [|eexists; reflexivity]
         end.
  exfalso. unfold request_fields in Hin. cbn [In] in Hin.
  repeat match type of Hin with
         | _ \/ _ => destruct Hin as [Hin|Hin]
         end;
    try contradiction; subst key;
    match goal with
    | E : get_float body ?k ?d = Ok _ |- _ =>
        match type of Hbad with
        | dict_find body k = _ => rewrite Hraise in E; discriminate E
        end
    end.
Qed.

Lemma assess_endpoint_rejects_bad_field_witness :
  [("benzene_gt", JOther TypeError)] <> [] /\
  In "benzene_gt" request_fields /\
  dict_find [("benzene_gt", JOther TypeError)] "benzene_gt" = Some (JOther TypeError) /\
  exists e',
    assess_air_quality small_system (Ok (Some [("benzene_gt", JOther TypeError)]))
    = AssessFailed e' 50.0 "Fair" 50.0 error_membership.
Proof.
  assert (H1 : [("benzene_gt", JOther TypeError)] <> ([] : dict json)) by discriminate.
  assert (H2 : In "benzene_gt" request_fields) by (cbn; tauto).
  assert (H3 : dict_find [("benzene_gt", JOther TypeError)] "benzene_gt"
               = Some (JOther TypeError)) by reflexivity.
  split; [exact H1|]. split; [exact H2|]. split; [exact H3|].
  destruct (assess_endpoint_rejects_bad_field small_system _ _ _ H1 H2 H3) as [H _].
  exact H.
Defined.

Section EndpointResults.

Variable np_sqrt : npfloat -> npfloat.
Variable sklearn_f1_score : list nat -> list nat -> result npfloat.
Variable shuffle : list Row -> list Row.

Lemma compare_methods_zero (fuzzy_system : FuzzyAirQualitySystem) :
  compare_methods np_sqrt sklearn_f1_score shuffle fuzzy_system 0
  = Ok (success_result get_default_metrics empty_predictions).
Proof.
  apply (compare_methods_few np_sqrt sklearn_f1_score shuffle fuzzy_system 0 []).
  - rewrite Z.min_l by lia. unfold df_sample.
    destruct (Z.of_nat (List.length (data fuzzy_system)) <? 0)%Z eqn:E.
    + apply Z.ltb_lt in E. lia.
    + reflexivity.
  - cbn. lia.
Qed.

(** X20: whenever the comparison succeeds, [/advanced_compare] replaces its
    metrics by metrics computed from the returned predictions, however few
    they are, and answers the failure body if that computation raises; the
    predictions and the sample size are passed on unchanged. *)
Theorem advanced_compare_recomputes_metrics (fuzzy_system : FuzzyAirQualitySystem)
  (data : option (dict json)) (samples : Z) (results : CompareResult) :
  int_of_json (dict_get (json_or_empty data) "samples" (JNum 500)) = Ok samples ->
  compare_methods np_sqrt sklearn_f1_score shuffle fuzzy_system samples = Ok results ->
  success results = true ->
  advanced_compare_methods np_sqrt sklearn_f1_score shuffle fuzzy_system (Ok data)
  = match calculate_enhanced_metrics np_sqrt sklearn_f1_score
            (fuzzy (predictions results)) (crisp (predictions results))
            (ground_truth (predictions results)) with
    | Ok m =>
        {| success := true;
           error := error results;
           metrics := m;
           predictions := predictions results;
           sample_size := sample_size results |}
    | Raise e => failure_result e
    end.
Proof.
  intros Hint Hcmp Hs. unfold advanced_compare_methods. cbn [bind].
  rewrite Hint. cbn [bind]. rewrite Hcmp. cbn [bind]. rewrite Hs.
  destruct (calculate_enhanced_metrics _ _ _ _ _) as [m|e]; reflexivity.
Qed.

(** X21: for a request of zero samples [/compare] answers the default
    metrics, while [/advanced_compare] answers metrics computed over the empty
    batch: the mean absolute error, accuracy and satisfaction of both series
    are NaN (when [f1_score] accepts empty arrays; the failure body
    otherwise). *)
Theorem zero_samples_endpoints (fuzzy_system : FuzzyAirQualitySystem) :
  compare_endpoint np_sqrt sklearn_f1_score shuffle fuzzy_system
    (Ok (Some [("samples", JNum 0)]))
  = success_result get_default_metrics empty_predictions /\
  advanced_compare_methods np_sqrt sklearn_f1_score shuffle fuzzy_system
    (Ok (Some [("samples", JNum 0)]))
  = match sklearn_f1_score [] [] with
    | Ok f1 =>
        success_result
          {| metrics_fuzzy :=
               {| mae := NaN; rmse := np_sqrt NaN; accuracy := NaN;
                  f1_score := f1; satisfaction := NaN |};
             metrics_crisp :=
               {| mae := NaN; rmse := np_sqrt NaN; accuracy := NaN;
                  f1_score := f1; satisfaction := NaN |} |}
          empty_predictions
    | Raise e => failure_result e
    end.
Proof.
  assert (Hi : forall d,
             int_of_json (dict_get (json_or_empty (Some [("samples", JNum 0)]))
                            "samples" (JNum d)) = Ok 0%Z) by reflexivity.
  split.
  - unfold compare_endpoint. cbn [bind]. rewrite Hi. cbn [bind].
    rewrite compare_methods_zero. reflexivity.
  - unfold advanced_compare_methods. cbn [bind]. rewrite Hi. cbn [bind].
    rewrite compare_methods_zero. cbn [bind success success_result predictions
      fuzzy crisp ground_truth empty_predictions].
    unfold calculate_enhanced_metrics.
    cbn [Np.subtract Np.equal_nat Np.zip_with bind map Np.mean Np.mean_bool].
    destruct (sklearn_f1_score [] []) as [f1|e]; [|reflexivity].
    cbn [bind]. reflexivity.
Qed.

End EndpointResults.

Lemma advanced_compare_recomputes_metrics_witness :
  int_of_json (dict_get (json_or_empty (Some [("samples", JNum 2)])) "samples" (JNum 500))
  = Ok 2%Z /\
  exists results,
    compare_methods (fun x => x) (fun _ _ => Ok (Fin 1)) (fun df => df) small_system 2
    = Ok results /\
    success results = true /\
    metrics results = get_default_metrics /\
    metrics (advanced_compare_methods (fun x => x) (fun _ _ => Ok (Fin 1)) (fun df => df)
               small_system (Ok (Some [("samples", JNum 2)])))
    <> get_default_metrics.
Proof.
  assert (H1 : int_of_json
                 (dict_get (json_or_empty (Some [("samples", JNum 2)])) "samples"
                    (JNum 500)) = Ok 2%Z) by reflexivity.
  split; [exact H1|].
  destruct (compare_methods (fun x => x) (fun _ _ => Ok (Fin 1)) (fun df => df)
              small_system 2) as [results|e] eqn:E; [|vm_compute in E; discriminate E].
  assert (Hs : success results = true)
    by (vm_compute in E; injection E as <-; reflexivity).
  assert (Hm : metrics results = get_default_metrics)
    by (vm_compute in E; injection E as <-; reflexivity).
  exists results. split; [reflexivity|]. split; [exact Hs|]. split; [exact Hm|].
  pose proof (advanced_compare_recomputes_metrics (fun x => x) (fun _ _ => Ok (Fin 1))
                (fun df => df) small_system _ 2 results H1 E Hs) as K.
  intro Habs. pose proof (eq_trans (eq_sym (f_equal metrics K)) Habs) as X.
  vm_compute in E. injection E as <-. vm_compute in X. discriminate X.
Defined.

(** ** The main path of the assessment *)

Lemma calculate_crisp_aqi_range (co no2 o3 : Q) :
  0 <= calculate_crisp_aqi co no2 o3 /\ calculate_crisp_aqi co no2 o3 <= 100.
Proof.
  rewrite !calculate_crisp_aqi_points.
  destruct (co_points_range co) as (? & ? & _).
  destruct (no2_points_range no2) as (? & ? & _).
  destruct (o3_points_range o3) as (? & ? & _).
  lra.
Qed.

(** X22: when the inference answers [v], the assessment returns [v] as the
    fuzzy score with the AQI band label of [v], echoes the five inputs, and
    its entry epa_aqi is the crisp score of (co, no2, o3/10), a value of the
    0-100 scale. *)
Theorem comprehensive_assess_main_path (self : FuzzyAirQualitySystem)
  (co no2 o3 temp humidity v : Q) :
  aqi_sim self co no2 o3 temp humidity = Ok v ->
  exists epa_aqi category confidence,
    comprehensive_assess self co no2 o3 temp humidity
    = Ok (Comprehensive v epa_aqi category confidence (co, no2, o3, temp, humidity)) /\
    nth_error aqi_band_labels (categorize v) = Some category /\
    epa_aqi = calculate_crisp_aqi co no2 (o3 / 10.0) /\
    0 <= epa_aqi /\ epa_aqi <= 100 /\
    confidence = calculate_confidence (rule_membership_value self co no2 o3 temp humidity).
Proof.
  intro H. do 3 eexists.
  split; [apply comprehensive_assess_Ok; exact H|].
  split; [unfold categorize, aqi_to_category; qcase; reflexivity|].
  split; [reflexivity|].
  split; [apply calculate_crisp_aqi_range|].
  split; [apply calculate_crisp_aqi_range | reflexivity].
Qed.

Lemma comprehensive_assess_main_path_witness :
  aqi_sim small_system 15 380 2900 35 80 = Ok 42 /\
  exists epa_aqi category confidence,
    comprehensive_assess small_system 15 380 2900 35 80
    = Ok (Comprehensive 42 epa_aqi category confidence (15, 380, 2900, 35, 80)) /\
    category = "Good" /\ epa_aqi <= 100.
Proof.
  assert (H : aqi_sim small_system 15 380 2900 35 80 = Ok 42) by reflexivity.
  split; [exact H|].
  destruct (comprehensive_assess_main_path small_system 15 380 2900 35 80 42 H)
    as (epa & cat & conf & Hr & Hc & _ & _ & Hhi & _).
  exists epa, cat, conf. split; [exact Hr|]. split; [|exact Hhi].
  vm_compute in Hc. injection Hc as <-. reflexivity.
Defined.

(** ** Formulas of the visualization curves *)

(** X23: with a positive width, the peak and rising expressions of
    [get_membership_functions] yield a degree in [0,1] at every point, and
    the falling expression at every non-negative point; at a negative point
    within its guard the falling expression exceeds 1. *)
Theorem curve_formulas_in_unit (c w lo hi a x : Q) :
  0 < w ->
  (0 <= peak c w lo hi x /\ peak c w lo hi x <= 1) /\
  (0 <= peak_upto c w hi x /\ peak_upto c w hi x <= 1) /\
  (0 <= rising a w lo x /\ rising a w lo x <= 1) /\
  (0 <= x -> 0 <= falling w hi x /\ falling w hi x <= 1) /\
  (x < 0 -> x <= hi -> 1 < falling w hi x).
Proof.
  intro Hw.
  assert (Habs : 0 <= Qabs (x - c) / w)
    by (apply Qle_shift_div_l; [exact Hw | pose proof (Qabs_nonneg (x - c)); lra]).
  unfold peak, peak_upto, rising, falling.
  set (p := Qabs (x - c) / w) in *.
  split; [|split; [|split; [|split]]].
  - unfold peak. destruct (Qle_bool lo x && Qle_bool x hi); [|split; lra].
    destruct (py_max_bounds 0 (1 - p)) as (M1 & M2 & [M3|M3]); split; lra.
  - unfold peak_upto. destruct (Qle_bool x hi); [|split; lra].
    destruct (py_max_bounds 0 (1 - p)) as (M1 & M2 & [M3|M3]); split; lra.
  - unfold rising. destruct (Qle_bool lo x); [|split; lra].
    destruct (py_min_bounds 1 ((x - a) / w)) as (N1 & N2 & _).
    destruct (py_max_bounds 0 (Py.min 1 ((x - a) / w))) as (M1 & M2 & [M3|M3]); split; lra.
  - intro Hx. unfold falling. destruct (Qle_bool x hi); [|split; lra].
    assert (Hq : 0 <= x / w) by (apply Qle_shift_div_l; lra).
    destruct (py_max_bounds 0 (1 - x / w)) as (M1 & M2 & [M3|M3]); split; lra.
  - intros Hx Hhi. unfold falling.
    apply Qle_bool_iff in Hhi. rewrite Hhi.
    assert (Hq : x / w < 0).
    { apply Qlt_shift_div_r; lra. }
    destruct (py_max_bounds 0 (1 - x / w)) as (M1 & M2 & _). lra.
Qed.

Lemma curve_formulas_in_unit_witness :
  0 < 50 /\ 0 <= 20 /\
  (0 <= falling 50 50 20 /\ falling 50 50 20 <= 1) /\
  (0 <= peak 100 50 50 150 120 /\ peak 100 50 50 150 120 <= 1).
Proof.
  assert (H1 : 0 < 50) by reflexivity.
  assert (H2 : 0 <= 20) by qdecide.
  split; [exact H1|]. split; [exact H2|].
  destruct (curve_formulas_in_unit 100 50 50 150 0 120 H1) as (Hp & _).
  destruct (curve_formulas_in_unit 0 50 0 50 0 20 H1) as (_ & _ & _ & Hf & _).
  split; [exact (Hf H2) | exact Hp].
Defined.
